(** * A shallow embedding of [database_connection]

    The package [database_connection] defines an abstract
    [DatabaseConnection] and two backends: [DatabaseConnectionMemory]
    (memory.py, with its [DataQueue]) and [DatabaseConnectionCSV] (csv.py).
    This file embeds the parts of them that fetch, write, delete and
    iterate over records, together with the pieces of the Python runtime
    they rely on: the values stored in records, [datetime] comparisons,
    [dateutil.parser.parse] on ISO-8601 text and the file system. *)

From Stdlib Require Import ZArith String Ascii List Bool Lia Permutation Sorted.
Import ListNotations.
Local Open Scope string_scope.
Local Open Scope Z_scope.
Local Open Scope list_scope.

(** ** Python exceptions and the error monad *)

Inductive pyexc :=
| ValueError
| TypeError
| KeyError
| AttributeError
| IndexError
| StopIteration
| FileNotFoundError
| OverflowError.

Inductive res (A : Type) : Type :=
| Ok (a : A)
| Err (e : pyexc).
Arguments Ok {A} a.
Arguments Err {A} e.

Definition bind {A B} (m : res A) (k : A -> res B) : res B :=
  match m with
  | Ok a => k a
  | Err e => Err e
  end.

Notation "x <- m ;; k" := (bind m (fun x => k))
  (at level 61, m at next level, right associativity).

(** [map] over a list with a fallible function, left to right, stopping at
    the first exception (a list or dict comprehension). *)
Fixpoint map_res {A B} (f : A -> res B) (l : list A) : res (list B) :=
  match l with
  | [] => Ok []
  | x :: r => y <- f x ;; ys <- map_res f r ;; Ok (y :: ys)
  end.

(** An optional argument that is converted when it is not [None]. *)
Definition opt_res {A B} (f : A -> res B) (o : option A) : res (option B) :=
  match o with
  | None => Ok None
  | Some a => b <- f a ;; Ok (Some b)
  end.

(** ** Datetimes

    A Python [datetime] is its wall-clock reading, in seconds since
    1970-01-01T00:00:00 of that wall clock, and its UTC offset in seconds
    when it is timezone-aware ([None] for a naive datetime). *)

Record datetime := mkdt { dt_wall : Z; dt_off : option Z }.

(** Comparisons between two naive datetimes use the wall clock, between
    two aware ones the instant (wall clock minus offset); comparing a naive
    with an aware datetime with [<] raises [TypeError]. *)
Definition dt_key (d : datetime) : Z :=
  match dt_off d with
  | None => dt_wall d
  | Some o => dt_wall d - o
  end.

Definition comparable (a b : datetime) : bool :=
  match dt_off a, dt_off b with
  | None, None => true
  | Some _, Some _ => true
  | _, _ => false
  end.

Definition dt_lt (a b : datetime) : res bool :=
  if comparable a b then Ok (dt_key a <? dt_key b) else Err TypeError.

(** [==] never raises: a naive and an aware datetime are simply unequal. *)
Definition dt_eqb (a b : datetime) : bool :=
  comparable a b && (dt_key a =? dt_key b).

(** [timestamp.replace(tzinfo=utc)] for a naive datetime and
    [timestamp.astimezone(tz=utc)] for an aware one. *)
Definition to_utc (d : datetime) : datetime :=
  match dt_off d with
  | None => mkdt (dt_wall d) (Some 0)
  | Some o => mkdt (dt_wall d - o) (Some 0)
  end.

(** ** Calendar arithmetic (proleptic Gregorian calendar) *)

Definition days_from_civil (y m d : Z) : Z :=
  let y' := if m <=? 2 then y - 1 else y in
  let era := y' / 400 in
  let yoe := y' - era * 400 in
  let mp := (m + 9) mod 12 in
  let doy := (153 * mp + 2) / 5 + d - 1 in
  let doe := yoe * 365 + yoe / 4 - yoe / 100 + doy in
  era * 146097 + doe - 719468.

Definition civil_from_days (z : Z) : Z * Z * Z :=
  let z := z + 719468 in
  let era := z / 146097 in
  let doe := z - era * 146097 in
  let yoe := (doe - doe / 1460 + doe / 36524 - doe / 146096) / 365 in
  let doy := doe - (365 * yoe + yoe / 4 - yoe / 100) in
  let mp := (5 * doy + 2) / 153 in
  let d := doy - (153 * mp + 2) / 5 + 1 in
  let m := if mp <? 10 then mp + 3 else mp - 9 in
  let y := yoe + era * 400 in
  ((if m <=? 2 then y + 1 else y), m, d).

Definition leap (y : Z) : bool :=
  ((y mod 4 =? 0) && negb (y mod 100 =? 0)) || (y mod 400 =? 0).

Definition days_in_month (y m : Z) : Z :=
  if m =? 2 then (if leap y then 29 else 28)
  else if (m =? 4) || (m =? 6) || (m =? 9) || (m =? 11) then 30 else 31.

(** [datetime.year]: the year of the calendar date of the wall clock. *)
Definition dt_year (d : datetime) : Z :=
  let '(y, _, _) := civil_from_days (dt_wall d / 86400) in y.

(** A [datetime] holds a year in 1..9999 ([datetime.min] .. [datetime.max]). *)
Definition dt_in_range (d : datetime) : bool := (1 <=? dt_year d) && (dt_year d <=? 9999).

(** ** ISO-8601 text

    [dateutil.parser.parse] restricted to the ISO-8601 forms the package's
    docstrings ask for: [YYYY-MM-DDTHH:MM:SS] followed by nothing (naive),
    by [Z], or by an offset [+HH:MM] / [-HH:MM]. Other text is reported as
    unparsable ([None], raised as [ValueError] below). *)

Definition digit (c : ascii) : option Z :=
  let n := nat_of_ascii c in
  if (48 <=? n)%nat && (n <=? 57)%nat then Some (Z.of_nat (n - 48)) else None.

Fixpoint digits_val (acc : Z) (cs : list ascii) : option Z :=
  match cs with
  | [] => Some acc
  | c :: r => match digit c with
              | Some v => digits_val (acc * 10 + v) r
              | None => None
              end
  end.

Definition is_char (c : ascii) (x : ascii) : bool := Ascii.eqb c x.

Definition parse_offset (cs : list ascii) : option (option Z) :=
  match cs with
  | [] => Some None
  | [z] => if is_char z "Z" then Some (Some 0) else None
  | [sg; h1; h2; c; m1; m2] =>
      match digits_val 0 [h1; h2], digits_val 0 [m1; m2] with
      | Some h, Some m =>
          if is_char c ":" && (h <? 24) && (m <? 60) then
            if is_char sg "+" then Some (Some (h * 3600 + m * 60))
            else if is_char sg "-" then Some (Some (- (h * 3600 + m * 60)))
            else None
          else None
      | _, _ => None
      end
  | _ => None
  end.

Definition parse_iso (s : string) : option datetime :=
  match list_ascii_of_string s with
  | y1 :: y2 :: y3 :: y4 :: c1 :: m1 :: m2 :: c2 :: d1 :: d2 :: t
      :: h1 :: h2 :: c3 :: i1 :: i2 :: c4 :: s1 :: s2 :: rest =>
      match digits_val 0 [y1; y2; y3; y4], digits_val 0 [m1; m2],
            digits_val 0 [d1; d2], digits_val 0 [h1; h2],
            digits_val 0 [i1; i2], digits_val 0 [s1; s2], parse_offset rest with
      | Some y, Some mo, Some d, Some h, Some mi, Some se, Some off =>
          if is_char c1 "-" && is_char c2 "-" && is_char t "T"
             && is_char c3 ":" && is_char c4 ":"
             && (1 <=? y) && (1 <=? mo) && (mo <=? 12)
             && (1 <=? d) && (d <=? days_in_month y mo)
             && (h <? 24) && (mi <? 60) && (se <? 60)
          then Some (mkdt (days_from_civil y mo d * 86400
                           + h * 3600 + mi * 60 + se) off)
          else None
      | _, _, _, _, _, _, _ => None
      end
  | _ => None
  end.

(** [datetime.isoformat(sep)] for whole seconds and whole-minute offsets. *)
Definition digit_char (n : Z) : ascii := ascii_of_nat (Z.to_nat (48 + n)).

Definition pad2 (n : Z) : string :=
  String (digit_char (n / 10)) (String (digit_char (n mod 10)) EmptyString).

Definition pad4 (n : Z) : string :=
  String.append (pad2 (n / 100)) (pad2 (n mod 100)).

Definition isoformat_sep (sep : string) (d : datetime) : string :=
  let w := dt_wall d in
  let '(y, mo, dd) := civil_from_days (w / 86400) in
  let secs := w mod 86400 in
  let off :=
    match dt_off d with
    | None => EmptyString
    | Some o =>
        let sg := if o <? 0 then "-" else "+" in
        let a := Z.abs o in
        String.append sg (String.append (pad2 (a / 3600))
                           (String.append ":" (pad2 ((a mod 3600) / 60))))
    end in
  String.append (pad4 y) (String.append "-" (String.append (pad2 mo)
  (String.append "-" (String.append (pad2 dd) (String.append sep
  (String.append (pad2 (secs / 3600)) (String.append ":"
  (String.append (pad2 ((secs mod 3600) / 60)) (String.append ":"
  (String.append (pad2 (secs mod 60)) off)))))))))).

Definition isoformat (d : datetime) : string := isoformat_sep "T" d.

(** ** Python values and dicts

    The values a record can hold: [None], integers, strings and datetime
    objects (a timestamp written as text is a [PStr]). *)

Inductive pyval :=
| PNone
| PInt (z : Z)
| PStr (s : string)
| PDt (d : datetime).

(** [dateutil.parser.parse(v)]: text is parsed, anything else raises
    [TypeError] ("Parser must be a string or character stream"). *)
Definition dateutil_parse (v : pyval) : res datetime :=
  match v with
  | PStr s => match parse_iso s with
              | Some d => Ok d
              | None => Err ValueError
              end
  | _ => Err TypeError
  end.

(** [==] between Python values, as used by the [in] operator on lists. *)
Definition py_eqb (a b : pyval) : bool :=
  match a, b with
  | PNone, PNone => true
  | PInt x, PInt y => Z.eqb x y
  | PStr x, PStr y => String.eqb x y
  | PDt x, PDt y => dt_eqb x y
  | _, _ => false
  end.

Definition py_in (v : pyval) (l : list pyval) : bool := existsb (py_eqb v) l.

(** [<] between Python values: strings compare lexicographically by code
    point, mixed types raise [TypeError]. *)
Definition str_ltb (s t : string) : bool :=
  match String.compare s t with Lt => true | _ => false end.

Definition py_lt (a b : pyval) : res bool :=
  match a, b with
  | PInt x, PInt y => Ok (x <? y)
  | PStr x, PStr y => Ok (str_ltb x y)
  | PDt x, PDt y => dt_lt x y
  | _, _ => Err TypeError
  end.

(** A dict is an association list in insertion order with distinct keys. *)
Definition dict := list (string * pyval).

Fixpoint dget (d : dict) (k : string) : option pyval :=
  match d with
  | [] => None
  | (k', v) :: r => if String.eqb k' k then Some v else dget r k
  end.

Definition has_key (d : dict) (k : string) : bool :=
  existsb (fun kv => String.eqb (fst kv) k) d.

(** [d[k]]; a key of [None] is never present among string keys. *)
Definition dict_index (d : dict) (k : option string) : res pyval :=
  match k with
  | None => Err KeyError
  | Some k => match dget d k with
              | Some v => Ok v
              | None => Err KeyError
              end
  end.

(** [d[k] = v]: overwrite in place or append. *)
Fixpoint dset (d : dict) (k : string) (v : pyval) : dict :=
  match d with
  | [] => [(k, v)]
  | (k', v') :: r => if String.eqb k' k then (k', v) :: r else (k', v') :: dset r k v
  end.

(** [x is not None] *)
Definition is_some {A} (o : option A) : bool :=
  match o with Some _ => true | None => false end.

(** [d.update(e)] *)
Definition dupdate (d e : dict) : dict :=
  fold_left (fun acc kv => dset acc (fst kv) (snd kv)) e d.

(** ** [DatabaseConnectionMemory] (memory.py) *)

Module Memory.

Record db := MemDB {
  timestamp_field_name : option string;
  object_id_field_name : option string;
  data : list dict
}.

(** [__init__]: an empty store. *)
Definition init (timestamp_field_name object_id_field_name : option string) : db :=
  MemDB timestamp_field_name object_id_field_name [].

Definition append (s : db) (datum : dict) : db :=
  MemDB (timestamp_field_name s) (object_id_field_name s) (data s ++ [datum]).

(** [self.x_field_name is not None and self.x_field_name not in datum.keys()] *)
Definition field_missing (f : option string) (datum : dict) : bool :=
  match f with
  | Some k => negb (has_key datum k)
  | None => false
  end.

(** The argument of [write_data]: one dict or a list of dicts. *)
Inductive write_arg :=
| One (datum : dict)
| Many (data : list dict).

(** The loop of [write_data]: each datum is checked, then appended. An
    exception leaves the data appended so far in the store. *)
Fixpoint write_loop (s : db) (l : list dict) : db * option pyexc :=
  match l with
  | [] => (s, None)
  | datum :: rest =>
      if field_missing (timestamp_field_name s) datum then (s, Some ValueError)
      else if field_missing (object_id_field_name s) datum then (s, Some ValueError)
      else write_loop (append s datum) rest
  end.

Definition write_data (s : db) (a : write_arg) : db * option pyexc :=
  match a with
  | One datum => write_loop s [datum]
  | Many l => write_loop s l
  end.

(** [{key: value for key, value in datapoint.items() if fields is None or key in fields}] *)
Definition project (fields : option (list string)) (dp : dict) : dict :=
  match fields with
  | None => dp
  | Some fs => filter (fun kv => existsb (String.eqb (fst kv)) fs) dp
  end.

(** The three [continue] tests of the loop of [fetch_data] for one
    datapoint; [true] when it is kept. *)
Definition keep (s : db) (sdt edt : option datetime) (object_ids : option (list pyval))
    (dp : dict) : res bool :=
  b1 <- match sdt with
        | None => Ok false
        | Some st => v <- dict_index dp (timestamp_field_name s) ;;
                     t <- dateutil_parse v ;; dt_lt t st
        end ;;
  if b1 then Ok false else
  b2 <- match edt with
        | None => Ok false
        | Some en => v <- dict_index dp (timestamp_field_name s) ;;
                     t <- dateutil_parse v ;; dt_lt en t
        end ;;
  if b2 then Ok false else
  match object_ids with
  | None => Ok true
  | Some ids => v <- dict_index dp (object_id_field_name s) ;; Ok (py_in v ids)
  end.

Fixpoint fetch_loop (s : db) (sdt edt : option datetime) (object_ids : option (list pyval))
    (fields : option (list string)) (l : list dict) : res (list dict) :=
  match l with
  | [] => Ok []
  | dp :: rest =>
      k <- keep s sdt edt object_ids dp ;;
      tl <- fetch_loop s sdt edt object_ids fields rest ;;
      Ok (if k then project fields dp :: tl else tl)
  end.

Definition fetch_data (s : db) (start_time end_time : option pyval)
    (object_ids : option (list pyval)) (fields : option (list string)) : res (list dict) :=
  if (is_some start_time || is_some end_time) && negb (is_some (timestamp_field_name s))
  then Err ValueError
  else if is_some object_ids && negb (is_some (object_id_field_name s))
  then Err ValueError
  else
    sdt <- opt_res dateutil_parse start_time ;;
    edt <- opt_res dateutil_parse end_time ;;
    fetch_loop s sdt edt object_ids fields (data s).

End Memory.

(** ** [DataQueue] (memory.py)

    Python lists are objects on a heap: [DataQueue.__init__] sorts the list
    it is given in place and keeps a reference to it. A heap maps every
    location to the list stored there. *)

Module Queue.

Definition loc := nat.
Definition heap := loc -> list dict.

Definition hupd (h : heap) (l : loc) (v : list dict) : heap :=
  fun l' => if Nat.eqb l' l then v else h l'.

Record data_queue := DQ {
  dq_data : loc;
  dq_timestamp_field_name : option string;
  num_datapoints : nat;
  next_data_pointer : nat
}.

(** Stable insertion by key: the new element goes before the first element
    [y] with [not (key y < key x)], using only [<] as [list.sort] does. *)
Fixpoint insert_key (kx : pyval * dict) (l : list (pyval * dict)) : res (list (pyval * dict)) :=
  match l with
  | [] => Ok [kx]
  | ky :: r =>
      b <- py_lt (fst ky) (fst kx) ;;
      if b then (r' <- insert_key kx r ;; Ok (ky :: r'))
      else Ok (kx :: ky :: r)
  end.

Fixpoint isort (l : list (pyval * dict)) : res (list (pyval * dict)) :=
  match l with
  | [] => Ok []
  | kx :: r => r' <- isort r ;; insert_key kx r'
  end.

(** [data.sort(key = lambda datapoint: datapoint[timestamp_field_name])]:
    the key of every element is computed first, then the elements are
    sorted stably by key. On keys that compare without error this is the
    ordering CPython's [list.sort] produces. *)
Definition sort_by_key (tsf : option string) (xs : list dict) : res (list dict) :=
  ks <- map_res (fun dp => dict_index dp tsf) xs ;;
  ys <- isort (combine ks xs) ;;
  Ok (map snd ys).

(** [DataQueue.__init__(data, timestamp_field_name)] where [data] is the
    list at location [l]. *)
Definition init (h : heap) (l : loc) (tsf : option string) : res (heap * data_queue) :=
  ys <- sort_by_key tsf (h l) ;;
  Ok (hupd h l ys, DQ l tsf (length ys) 0).

(** [DataQueue.__next__]: the record at the pointer, or [StopIteration]. *)
Definition next (h : heap) (q : data_queue) : data_queue * res dict :=
  if Nat.leb (num_datapoints q) (next_data_pointer q) then (q, Err StopIteration)
  else match nth_error (h (dq_data q)) (next_data_pointer q) with
       | Some dp => (DQ (dq_data q) (dq_timestamp_field_name q) (num_datapoints q)
                        (S (next_data_pointer q)), Ok dp)
       | None => (q, Err IndexError)
       end.

(** [n] successive calls of [next] with no other change to the heap. *)
Fixpoint run (h : heap) (q : data_queue) (n : nat) : data_queue * list (res dict) :=
  match n with
  | O => (q, [])
  | S n' => let '(q1, r) := next h q in
            let '(q2, rs) := run h q1 n' in (q2, r :: rs)
  end.

End Queue.

(** [DatabaseConnectionMemory.to_data_queue]: [fetch_data] builds a new list,
    placed at the fresh location [l], and a [DataQueue] is built on it. *)
Definition mem_to_data_queue (s : Memory.db) (h : Queue.heap) (l : Queue.loc)
    (start_time end_time : option pyval) (object_ids : option (list pyval))
    (fields : option (list string)) : res (Queue.heap * Queue.data_queue) :=
  fetched <- Memory.fetch_data s start_time end_time object_ids fields ;;
  Queue.init (Queue.hupd h l fetched) l (Memory.timestamp_field_name s).

(** ** [DatabaseConnection._python_datetime_utc] (__init__.py)

    [timestamp.astimezone(tz=utc)] raises [OverflowError] when the UTC
    reading leaves the range of [datetime]; [replace(tzinfo=utc)] keeps the
    wall clock and never raises. *)
Definition astimezone_utc (d : datetime) : res datetime :=
  if dt_in_range (to_utc d) then Ok (to_utc d) else Err OverflowError.

(** The [if datetime.tzinfo is None] branch on a datetime at hand. *)
Definition utc_of (d : datetime) : res datetime :=
  match dt_off d with
  | None => Ok (to_utc d)
  | Some _ => astimezone_utc d
  end.

(** A datetime object is normalised in the [try] block. For anything else
    the attribute access [timestamp.tzinfo] raises; so does [astimezone]
    when it overflows. The bare [except] catches either and hands the value
    to [dateutil.parser.parse] (which raises [TypeError] on a datetime
    object); a parsed datetime is normalised in the [except] block, where
    an [OverflowError] is no longer caught. *)
Definition python_datetime_utc (v : pyval) : res datetime :=
  match v with
  | PDt d => match utc_of d with
             | Ok u => Ok u
             | Err _ => p <- dateutil_parse v ;; utc_of p
             end
  | _ => p <- dateutil_parse v ;; utc_of p
  end.

(** [str(value)] *)
Fixpoint pos_digits (fuel : nat) (n : Z) (acc : string) : string :=
  match fuel with
  | O => acc
  | S f => if n <? 10 then String (digit_char n) acc
           else pos_digits f (n / 10) (String (digit_char (n mod 10)) acc)
  end.

Definition z_to_dec (z : Z) : string :=
  let digits := pos_digits (S (Z.to_nat (Z.log2 (Z.abs z)))) (Z.abs z) EmptyString in
  if z <? 0 then String "-" digits else digits.

Definition py_str (v : pyval) : string :=
  match v with
  | PNone => "None"
  | PInt z => z_to_dec z
  | PStr s => s
  | PDt d => isoformat_sep " " d
  end.

Fixpoint assoc {A} (k : string) (l : list (string * A)) : option A :=
  match l with
  | [] => None
  | (k', v) :: r => if String.eqb k' k then Some v else assoc k r
  end.

(** ** [DatabaseConnectionCSV] (csv.py)

    The file system maps a path to the rows of the CSV file stored there,
    each row being the list of its cells; the text encoding of rows by the
    [csv] module is left out. *)

Module CSV.

Definition row := list string.
Definition fsys := string -> option (list row).

Definition fs_set (fs : fsys) (p : string) (v : option (list row)) : fsys :=
  fun q => if String.eqb q p then v else fs q.

(** [open(path, mode = 'a')] followed by one [writerow]. *)
Definition fs_append (fs : fsys) (p : string) (r : row) : fsys :=
  fs_set fs p (Some (match fs p with Some rows => rows ++ [r] | None => [r] end)).

Record db := CSVDB {
  path : string;
  time_series_database : bool;
  object_database : bool;
  field_names : list string;
  convert_to_string_functions : list (string * (pyval -> res string));
  convert_from_string_functions : list (string * (string -> res pyval))
}.

Fixpoint row_eqb (a b : row) : bool :=
  match a, b with
  | [], [] => true
  | x :: a', y :: b' => String.eqb x y && row_eqb a' b'
  | _, _ => false
  end.

(** [csv.DictReader(fh).fieldnames]: the first row, [None] for an empty file. *)
Definition header (rows : list row) : option row :=
  match rows with
  | [] => None
  | r :: _ => Some r
  end.

(** The rows [csv.DictReader] yields after the header (blank rows skipped). *)
Definition body (rows : list row) : list row :=
  match rows with
  | [] => []
  | _ :: b => filter (fun r => match r with [] => false | _ => true end) b
  end.

Definition reserved_in (n : string) (data_field_names : option (list string)) : bool :=
  match data_field_names with
  | Some l => existsb (String.eqb n) l
  | None => false
  end.

Definition make_field_names (tsdb objdb : bool) (data_field_names : option (list string))
    : list string :=
  (if tsdb then ["timestamp"] else []) ++ (if objdb then ["object_id"] else [])
  ++ match data_field_names with Some l => l | None => [] end.

(** [__init__]. When the header of an existing file differs from the field
    names, the message of the [Exception] being raised is formatted with
    [self.fieldnames], an attribute that does not exist: the exception that
    leaves the constructor is an [AttributeError]. *)
Definition init (fs : fsys) (p : string) (tsdb objdb : bool)
    (data_field_names : option (list string))
    (to_str : list (string * (pyval -> res string)))
    (from_str : list (string * (string -> res pyval))) : res (fsys * db) :=
  if negb tsdb && negb objdb then Err ValueError
  else if reserved_in "timestamp" data_field_names then Err ValueError
  else if reserved_in "object_id" data_field_names then Err ValueError
  else
    let fns := make_field_names tsdb objdb data_field_names in
    let s := CSVDB p tsdb objdb fns to_str from_str in
    match fs p with
    | Some rows =>
        match header rows with
        | Some h => if row_eqb h fns then Ok (fs, s) else Err AttributeError
        | None => Err AttributeError
        end
    | None => Ok (fs_set fs p (Some [fns]), s)
    end.

Definition convert_to_string (s : db) (f : string) (v : pyval) : res string :=
  match v with
  | PNone => Ok EmptyString
  | _ =>
      match assoc f (convert_to_string_functions s) with
      | Some fn => fn v
      | None =>
          if String.eqb f "timestamp" then
            match v with PDt d => Ok (isoformat d) | _ => Err AttributeError end
          else Ok (py_str v)
      end
  end.

Definition convert_from_string (s : db) (f : string) (cell : option string) : res pyval :=
  match cell with
  | None => Ok PNone
  | Some c =>
      if String.eqb c EmptyString then Ok PNone
      else match assoc f (convert_from_string_functions s) with
           | Some fn => fn c
           | None => if String.eqb f "timestamp" then (d <- dateutil_parse (PStr c) ;; Ok (PDt d))
                     else Ok (PStr c)
           end
  end.

(** The dict [csv.DictReader] yields for a row: [dict(zip(fieldnames, row))],
    with the missing trailing fields of a short row set to [None]. *)
Fixpoint sset (d : list (string * option string)) (k : string) (v : option string)
    : list (string * option string) :=
  match d with
  | [] => [(k, v)]
  | (k', v') :: r => if String.eqb k' k then (k', v) :: r else (k', v') :: sset r k v
  end.

Definition string_dict (hdr r : row) : list (string * option string) :=
  let d := fold_left (fun acc kv => sset acc (fst kv) (Some (snd kv))) (combine hdr r) [] in
  fold_left (fun acc k => sset acc k None) (skipn (length r) hdr) d.

(** [string_dict.get(field_name)] *)
Definition sget (d : list (string * option string)) (k : string) : option string :=
  match assoc k d with Some v => v | None => None end.

(** [{field_name: self._convert_from_string(field_name, string_dict.get(field_name)) ...}]:
    the values are computed in the order of the field names and stored one
    after the other, a repeated field name overwriting its earlier value. *)
Definition decode (s : db) (hdr r : row) : res dict :=
  let sd := string_dict hdr r in
  kvs <- map_res (fun f => v <- convert_from_string s f (sget sd f) ;; Ok (f, v)) (field_names s) ;;
  Ok (dupdate [] kvs).

Definition read_file (fs : fsys) (p : string) : res (list row) :=
  match fs p with
  | Some rows => Ok rows
  | None => Err FileNotFoundError
  end.

Definition hdr_of (rows : list row) : row :=
  match header rows with Some h => h | None => [] end.

(** The public [write_data_object_time_series] followed by
    [_write_data_object_time_series]. *)
Definition write_data_object_time_series (fs : fsys) (s : db)
    (timestamp object_id : pyval) (data : dict) : res fsys :=
  if negb (time_series_database s && object_database s) then Err ValueError
  else
    ts <- python_datetime_utc timestamp ;;
    let value_dict := dupdate [("timestamp", PDt ts); ("object_id", object_id)] data in
    r <- map_res (fun f => convert_to_string s f
                             (match dget value_dict f with Some v => v | None => PNone end))
                 (field_names s) ;;
    Ok (fs_append fs (path s) r).

(** The three [continue] tests of [_fetch_data_object_time_series]. *)
Definition fetch_keep (sdt edt : option datetime) (object_ids : option (list pyval))
    (vd : dict) : res bool :=
  b1 <- match sdt with
        | None => Ok false
        | Some st => v <- dict_index vd (Some "timestamp") ;; py_lt v (PDt st)
        end ;;
  if b1 then Ok false else
  b2 <- match edt with
        | None => Ok false
        | Some en => v <- dict_index vd (Some "timestamp") ;; py_lt (PDt en) v
        end ;;
  if b2 then Ok false else
  match object_ids with
  | None => Ok true
  | Some ids => v <- dict_index vd (Some "object_id") ;; Ok (py_in v ids)
  end.

Fixpoint fetch_rows (s : db) (sdt edt : option datetime) (object_ids : option (list pyval))
    (hdr : row) (rs : list row) : res (list dict) :=
  match rs with
  | [] => Ok []
  | r :: rest =>
      vd <- decode s hdr r ;;
      k <- fetch_keep sdt edt object_ids vd ;;
      tl <- fetch_rows s sdt edt object_ids hdr rest ;;
      Ok (if k then vd :: tl else tl)
  end.

(** The public [fetch_data_object_time_series] followed by
    [_fetch_data_object_time_series]. *)
Definition fetch_data_object_time_series (fs : fsys) (s : db)
    (start_time end_time : option pyval) (object_ids : option (list pyval))
    : res (list dict) :=
  if negb (time_series_database s && object_database s) then Err ValueError
  else
    sdt <- opt_res python_datetime_utc start_time ;;
    edt <- opt_res python_datetime_utc end_time ;;
    rows <- read_file fs (path s) ;;
    fetch_rows s sdt edt object_ids (hdr_of rows) (body rows).

(** The three [continue] tests of [_delete_data_object_time_series]:
    [true] when the row is skipped, i.e. not copied to the new file. *)
Definition delete_skip (st en : datetime) (object_ids : list pyval) (vd : dict)
    : res bool :=
  v <- dict_index vd (Some "timestamp") ;;
  b1 <- py_lt (PDt st) v ;;
  if b1 then Ok true else
  b2 <- py_lt v (PDt en) ;;
  if b2 then Ok true else
  o <- dict_index vd (Some "object_id") ;;
  Ok (py_in o object_ids).

(** [csv.DictWriter(fieldnames = self.field_names).writerow(string_dict)]:
    keys outside the field names (a header field not among them, or the
    [None] key of a row longer than the header) raise [ValueError]. *)
Definition writer_row (s : db) (hdr r : row) : res row :=
  let sd := string_dict hdr r in
  if existsb (fun kv => negb (existsb (String.eqb (fst kv)) (field_names s))) sd
     || Nat.ltb (length hdr) (length r)
  then Err ValueError
  else Ok (map (fun f => match sget sd f with Some c => c | None => EmptyString end) (field_names s)).

(** The loop over the rows of the file: the rows copied so far and the
    exception that stopped it, if any. *)
Fixpoint delete_loop (s : db) (st en : datetime) (object_ids : list pyval)
    (hdr : row) (rs : list row) : list row * option pyexc :=
  match rs with
  | [] => ([], None)
  | r :: rest =>
      match (vd <- decode s hdr r ;; delete_skip st en object_ids vd) with
      | Err e => ([], Some e)
      | Ok true => delete_loop s st en object_ids hdr rest
      | Ok false =>
          match writer_row s hdr r with
          | Err e => ([], Some e)
          | Ok w => let '(ws, e) := delete_loop s st en object_ids hdr rest in (w :: ws, e)
          end
      end
  end.

Definition temp_path : string := ".temp.csv".

(** The public [delete_data_object_time_series] followed by
    [_delete_data_object_time_series]: the kept rows are written under a
    fresh header to [.temp.csv], which [os.replace] then moves over the
    file. An exception during the loop leaves the partial temporary file. *)
Definition delete_data_object_time_series (fs : fsys) (s : db)
    (start_time end_time : option pyval) (object_ids : option (list pyval))
    : fsys * option pyexc :=
  if negb (time_series_database s && object_database s) then (fs, Some ValueError)
  else
    match start_time, end_time, object_ids with
    | Some st, Some en, Some ids =>
        match python_datetime_utc st with
        | Err e => (fs, Some e)
        | Ok sdt =>
            match python_datetime_utc en with
            | Err e => (fs, Some e)
            | Ok edt =>
                match fs (path s) with
                | None => (fs, Some FileNotFoundError)
                | Some rows =>
                    let '(ws, err) := delete_loop s sdt edt ids (hdr_of rows) (body rows) in
                    let tmp := Some (field_names s :: ws) in
                    match err with
                    | None => (fs_set (fs_set fs temp_path None) (path s) tmp, None)
                    | Some e => (fs_set fs temp_path tmp, Some e)
                    end
                end
            end
        end
    | _, _, _ => (fs, Some ValueError)
    end.

End CSV.

(** ** The filter predicate of the specification

    [spec_select ts oid sdt edt ids r]: record [r] is selected iff (no start
    or [start <= r.timestamp]) and (no end or [r.timestamp <= end]) and (no
    object ids or [r.object_id] in them). [ts] and [oid] read the timestamp
    and the object id of a record the way each backend stores them;
    instants are compared by [dt_key]. *)
Definition spec_select (ts : dict -> option datetime) (oid : dict -> option pyval)
    (sdt edt : option datetime) (ids : option (list pyval)) (r : dict) : bool :=
  match sdt with
  | None => true
  | Some st => match ts r with Some t => dt_key st <=? dt_key t | None => false end
  end &&
  match edt with
  | None => true
  | Some en => match ts r with Some t => dt_key t <=? dt_key en | None => false end
  end &&
  match ids with
  | None => true
  | Some l => match oid r with Some o => py_in o l | None => false end
  end.

(** A timestamp [t] can be compared with the bounds that are given. *)
Definition bounds_ok (t : datetime) (sdt edt : option datetime) : bool :=
  match sdt with Some st => comparable t st | None => true end &&
  match edt with Some en => comparable en t | None => true end.

(** The timestamp of an in-memory record: its text parsed by dateutil. *)
Definition mem_ts (s : Memory.db) (r : dict) : option datetime :=
  match Memory.timestamp_field_name s with
  | Some f => match dget r f with
              | Some v => match dateutil_parse v with Ok d => Some d | Err _ => None end
              | None => None
              end
  | None => None
  end.

Definition mem_oid (s : Memory.db) (r : dict) : option pyval :=
  match Memory.object_id_field_name s with
  | Some f => dget r f
  | None => None
  end.

(** The timestamp of a decoded row of the CSV file. *)
Definition csv_ts (r : dict) : option datetime :=
  match dget r "timestamp" with Some (PDt d) => Some d | _ => None end.

Definition csv_oid (r : dict) : option pyval := dget r "object_id".

(** A record whose timestamp and object id can be read and compared with
    the filters that are given. *)
Definition record_ok (ts : dict -> option datetime) (oid : dict -> option pyval)
    (sdt edt : option datetime) (ids : option (list pyval)) (r : dict) : Prop :=
  (is_some sdt || is_some edt = true ->
     exists t, ts r = Some t /\ bounds_ok t sdt edt = true) /\
  (is_some ids = true -> oid r <> None).

(** [write_data] accepts a datum: no configured field is missing from it. *)
Definition mem_valid (s : Memory.db) (datum : dict) : bool :=
  negb (Memory.field_missing (Memory.timestamp_field_name s) datum)
  && negb (Memory.field_missing (Memory.object_id_field_name s) datum).

(** [DataQueue] order: [a] may precede [b] when [not (key b < key a)]. *)
Definition key_le (tsf : option string) (a b : dict) : Prop :=
  exists ka kb, dict_index a tsf = Ok ka /\ dict_index b tsf = Ok kb /\ py_lt kb ka = Ok false.

(** Two optional bounds that are both absent, or both offset-aware and
    denote the same instant. *)
Definition same_aware_instant (x y : option datetime) : bool :=
  match x, y with
  | None, None => true
  | Some a, Some b => is_some (dt_off a) && is_some (dt_off b) && (dt_key a =? dt_key b)
  | _, _ => false
  end.

(** Comparing a stored timestamp [t] with the bounds raises [TypeError]:
    the start bound is compared first, and the end bound only when [t] is
    not before the start bound. *)
Definition bound_type_error (t : datetime) (sdt edt : option datetime) : bool :=
  let end_err := match edt with Some en => negb (comparable en t) | None => false end in
  match sdt with
  | Some st => if comparable t st then negb (dt_key t <? dt_key st) && end_err else true
  | None => end_err
  end.

(** The seconds since the epoch of the UTC instant of an aware datetime:
    its wall clock minus its offset. *)
Definition utc_seconds (d : datetime) : Z :=
  dt_wall d - match dt_off d with Some o => o | None => 0 end.

(** [spec_select] with the datetimes compared through [key]. *)
Definition select_by (key : datetime -> Z) (ts : dict -> option datetime)
    (oid : dict -> option pyval) (sdt edt : option datetime) (ids : option (list pyval))
    (r : dict) : bool :=
  match sdt with
  | None => true
  | Some st => match ts r with Some t => key st <=? key t | None => false end
  end &&
  match edt with
  | None => true
  | Some en => match ts r with Some t => key t <=? key en | None => false end
  end &&
  match ids with
  | None => true
  | Some l => match oid r with Some o => py_in o l | None => false end
  end.

(** An optional bound that is absent or naive; absent or aware. *)
Definition naive_opt (x : option datetime) : bool :=
  match x with Some d => negb (is_some (dt_off d)) | None => true end.
Definition aware_opt (x : option datetime) : bool :=
  match x with Some d => is_some (dt_off d) | None => true end.

(** The order [Queue.isort] establishes on (key, record) pairs. *)
Definition key_rel (p q : pyval * dict) : Prop := py_lt (fst q) (fst p) = Ok false.

(** ** Auxiliary definitions for the properties of the runtime pieces *)

(** Day [z] is turned into a valid date that [days_from_civil] maps back
    to [z]. *)
Definition civil_ok (z : Z) : bool :=
  let '(y, m, d) := civil_from_days z in
  (days_from_civil y m d =? z) && (1 <=? m) && (m <=? 12)
  && (1 <=? d) && (d <=? days_in_month y m).

(** [f] holds on the [n] integers from [z] on. *)
Fixpoint all_from (f : Z -> bool) (n : nat) (z : Z) : bool :=
  match n with
  | O => true
  | S n' => f z && all_from f n' (z + 1)
  end.

(** The sort keys [a] and [b] tie: comparing them with [<] raises
    nothing and neither is less than the other. *)
Definition key_tie (a b : pyval) : bool :=
  match py_lt a b, py_lt b a with
  | Ok false, Ok false => true
  | _, _ => false
  end.

(** The sort key of record [dp] under the timestamp field [tsf] ties with [k]. *)
Definition key_ties (tsf : option string) (k : pyval) (dp : dict) : bool :=
  match dict_index dp tsf with
  | Ok v => key_tie v k
  | Err _ => false
  end.

(** The same test on the (key, record) pairs [Queue.isort] works on. *)
Definition pkey_ties (k : pyval) (p : pyval * dict) : bool := key_tie (fst p) k.

(** A (key, record) pair whose key is a string. *)
Definition str_key (p : pyval * dict) : Prop := exists t, fst p = PStr t.

(** ** Concrete stores used below *)

Definition no_files : CSV.fsys := fun _ => None.

(** The object time series CSV store on [db.csv] with the default fields
    and converters. *)
Definition csv_default : CSV.db :=
  CSV.CSVDB "db.csv" true true ["timestamp"; "object_id"] [] [].

(** [db.csv] holding object [a] at 2024-01-01T00:00:00Z and object [b] at
    2024-01-02T00:00:00Z, as [write_data_object_time_series] writes them. *)
Definition file_ab : CSV.fsys :=
  CSV.fs_set no_files "db.csv"
    (Some [["timestamp"; "object_id"];
           ["2024-01-01T00:00:00+00:00"; "a"];
           ["2024-01-02T00:00:00+00:00"; "b"]]).

Definition rec_plus5 : dict := [("timestamp", PStr "2024-01-01T10:00:00+05:00")].
Definition rec_utc6 : dict := [("timestamp", PStr "2024-01-01T06:00:00+00:00")].

Definition empty_heap : Queue.heap := fun _ => [].

(** The heap holding one list, at location 0, with the two records above,
    and the state [DataQueue.__init__] leaves. *)
Definition heap_two : Queue.heap := Queue.hupd empty_heap 0%nat [rec_plus5; rec_utc6].
Definition heap_two_sorted : Queue.heap := Queue.hupd heap_two 0%nat [rec_utc6; rec_plus5].
Definition queue_two : Queue.data_queue := Queue.DQ 0%nat (Some "timestamp") 2%nat 0%nat.

(** An in-memory object time series store holding one datapoint. *)
Definition mem_ab : Memory.db :=
  Memory.MemDB (Some "timestamp") (Some "object_id")
    [[("timestamp", PStr "2024-01-01T00:00:00+00:00"); ("object_id", PStr "a")]].

(** An in-memory object time series store holding three datapoints:
    object [a] on 2024-01-01, [b] on 2024-01-02 and [a] on 2024-01-03. *)
Definition mem_abc : Memory.db :=
  Memory.MemDB (Some "timestamp") (Some "object_id")
    [[("timestamp", PStr "2024-01-01T00:00:00+00:00"); ("object_id", PStr "a")];
     [("timestamp", PStr "2024-01-02T00:00:00+00:00"); ("object_id", PStr "b")];
     [("timestamp", PStr "2024-01-03T00:00:00+00:00"); ("object_id", PStr "a")]].

(** Three datapoints with [datetime] timestamps: [rec_t1] at
    05:00+05:00 (00:00Z), [rec_t2] an earlier instant, [rec_t3] at 00:00Z. *)
Definition rec_t1 : dict := [("timestamp", PDt (mkdt 1704085200 (Some 18000))); ("object_id", PStr "a")].
Definition rec_t2 : dict := [("timestamp", PDt (mkdt 1704000000 (Some 0))); ("object_id", PStr "b")].
Definition rec_t3 : dict := [("timestamp", PDt (mkdt 1704067200 (Some 0))); ("object_id", PStr "c")].
Definition heap_tie : Queue.heap := Queue.hupd empty_heap 0%nat [rec_t1; rec_t2; rec_t3].

(** A CSV store whose field list names [x] twice, and its file. *)
Definition csv_dup : CSV.db :=
  CSV.CSVDB "dup.csv" true true ["timestamp"; "object_id"; "x"; "x"] [] [].
Definition file_dup : CSV.fsys :=
  CSV.fs_set no_files "dup.csv"
    (Some [["timestamp"; "object_id"; "x"; "x"]; ["2024-01-01T00:00:00+00:00"; "a"; "1"; "2"]]).

(** The keys of a record decoded from a row. *)
Definition keys_of_fields (fns : list string) (vd : dict) : Prop :=
  NoDup (map fst vd) /\ (forall k, In k (map fst vd) <-> In k fns)
  /\ (NoDup fns -> map fst vd = fns).

(** [db.csv] holding only its header row. *)
Definition file_empty_db : CSV.fsys := CSV.fs_set no_files "db.csv" (Some [["timestamp"; "object_id"]]).

(** * Properties *)

(** ** Concrete runs *)

(** Claim C1 (code_bug): delete on the file-backed store should remove a
    record iff its timestamp is in [[start, end]] and its object id is in
    [object_ids]. With [a] at 2024-01-01T00:00:00Z and [b] at
    2024-01-02T00:00:00Z, deleting over [[2024-01-01T00:00:00Z,
    2024-01-01T23:59:59Z]] for [{a}] empties the file: [b] is removed too,
    because the code skips (deletes) a row when [timestamp > start] or
    [timestamp < end] or its id is in the list. *)
Theorem csv_delete_removes_unmatched_record :
  CSV.delete_data_object_time_series file_ab csv_default
    (Some (PStr "2024-01-01T00:00:00Z")) (Some (PStr "2024-01-01T23:59:59Z"))
    (Some [PStr "a"])
  = (CSV.fs_set (CSV.fs_set file_ab CSV.temp_path None) "db.csv"
       (Some [["timestamp"; "object_id"]]), None).
Proof. reflexivity. Qed.

(** Claim C3 (code_bug): the queue should yield records in order of their
    parsed instants. Written as 10:00+05:00 (05:00Z) and 06:00+00:00
    (06:00Z), the records come out as 06:00Z then 05:00Z: [DataQueue] sorts
    by the raw text of the timestamp field. *)
Theorem data_queue_orders_by_raw_text :
  let s := fst (Memory.write_data (Memory.init (Some "timestamp") None)
                  (Memory.Many [rec_plus5; rec_utc6])) in
  (exists h q, mem_to_data_queue s empty_heap 0%nat None None None None = Ok (h, q)
     /\ snd (Queue.run h q 2%nat) = [Ok rec_utc6; Ok rec_plus5])
  /\ (exists t5 t6, mem_ts s rec_plus5 = Some t5 /\ mem_ts s rec_utc6 = Some t6
        /\ dt_key t5 < dt_key t6).
Proof.
  split.
  - do 2 eexists. split; [vm_compute; reflexivity | vm_compute; reflexivity].
  - do 2 eexists. split; [vm_compute; reflexivity | split; [vm_compute; reflexivity | ]].
    vm_compute. reflexivity.
Qed.

(** Claim C5 (code_bug): [to_data_queue] on an in-memory store without a
    timestamp field should always raise. On an empty store it returns a
    queue: sorting an empty list never calls the key function. *)
Theorem to_data_queue_without_timestamp_field_succeeds :
  exists h q, mem_to_data_queue (Memory.init None None) empty_heap 0%nat None None None None
              = Ok (h, q).
Proof. do 2 eexists. reflexivity. Qed.

(** ** Counterexamples *)


(** Claim C6: the file-backed store writes a record whose object id is
    [None]; its object id cell is empty. *)
Lemma csv_write_accepts_missing_object_id :
  CSV.write_data_object_time_series (CSV.fs_set no_files "db.csv" (Some [["timestamp"; "object_id"]]))
    csv_default (PStr "2024-01-01T00:00:00Z") PNone []
  = Ok (CSV.fs_append (CSV.fs_set no_files "db.csv" (Some [["timestamp"; "object_id"]]))
          "db.csv" ["2024-01-01T00:00:00+00:00"; EmptyString]).
Proof. reflexivity. Qed.

(** Claim C8: with neither a time series nor an object database, the
    constructor raises before looking at the path, and no file is created. *)
Lemma csv_init_invalid_config_creates_nothing :
  CSV.init no_files "db.csv" false false None [] [] = Err ValueError
  /\ no_files "db.csv" = None.
Proof. split; reflexivity. Qed.


(** ** [DataQueue]: sorting and iteration *)

Section QueueFacts.

Lemma map_res_Forall2 {A B} (f : A -> res B) l l' :
  map_res f l = Ok l' -> Forall2 (fun x y => f x = Ok y) l l'.
Proof.
  revert l'. induction l as [|x r IH]; intros l' H; simpl in H.
  - inversion H. constructor.
  - destruct (f x) as [y|e] eqn:Ef; simpl in H; [|discriminate].
    destruct (map_res f r) as [ys|e] eqn:Er; simpl in H; [|discriminate].
    inversion H; subst. constructor; auto.
Qed.

Lemma map_snd_combine {A B} (ks : list A) (xs : list B) :
  length ks = length xs -> map snd (combine ks xs) = xs.
Proof.
  revert xs. induction ks as [|k ks IH]; intros [|x xs] H; simpl in *; try discriminate; auto.
  f_equal. apply IH. lia.
Qed.

Lemma Forall2_combine_keys (tsf : option string) xs ks :
  Forall2 (fun x k => dict_index x tsf = Ok k) xs ks ->
  Forall (fun p => dict_index (snd p) tsf = Ok (fst p)) (combine ks xs).
Proof.
  induction 1; simpl; constructor; auto.
Qed.

Lemma insert_key_perm kx l l' :
  Queue.insert_key kx l = Ok l' -> Permutation (kx :: l) l'.
Proof.
  revert l'. induction l as [|ky r IH]; intros l' H; simpl in H.
  - inversion H. apply Permutation_refl.
  - destruct (py_lt (fst ky) (fst kx)) as [[|]|e]; simpl in H; try discriminate.
    + destruct (Queue.insert_key kx r) as [r'|e] eqn:E; simpl in H; [|discriminate].
      inversion H; subst. eapply perm_trans; [apply perm_swap|]. constructor. auto.
    + inversion H. apply Permutation_refl.
Qed.

Lemma isort_perm l l' : Queue.isort l = Ok l' -> Permutation l l'.
Proof.
  revert l'. induction l as [|kx r IH]; intros l' H; simpl in H.
  - inversion H. constructor.
  - destruct (Queue.isort r) as [r'|e] eqn:E; simpl in H; [|discriminate].
    eapply perm_trans; [constructor; apply IH; reflexivity|]. now apply insert_key_perm.
Qed.

Lemma sort_by_key_perm tsf xs ys :
  Queue.sort_by_key tsf xs = Ok ys -> Permutation xs ys.
Proof.
  unfold Queue.sort_by_key. intros H.
  destruct (map_res _ xs) as [ks|e] eqn:Ek; simpl in H; [|discriminate].
  destruct (Queue.isort (combine ks xs)) as [ps|e] eqn:Ep; simpl in H; [|discriminate].
  inversion H; subst.
  apply map_res_Forall2, Forall2_length in Ek.
  rewrite <- (map_snd_combine ks xs) at 1 by auto.
  apply Permutation_map. now apply isort_perm.
Qed.

(** Python's [<] is asymmetric where it does not raise. *)
Lemma py_lt_asym a b : py_lt a b = Ok true -> py_lt b a = Ok false.
Proof.
  destruct a, b; simpl; intros H; try discriminate.
  - inversion H. apply Z.ltb_lt in H1. f_equal. apply Z.ltb_ge. lia.
  - inversion H. unfold str_ltb in *. rewrite String.compare_antisym.
    destruct (String.compare s s0); simpl in *; congruence.
  - unfold dt_lt in *. destruct (comparable d d0) eqn:C; [|discriminate].
    assert (comparable d0 d = true) as ->
      by (unfold comparable in *; destruct (dt_off d), (dt_off d0); congruence).
    inversion H. apply Z.ltb_lt in H1. f_equal. apply Z.ltb_ge. lia.
Qed.

Lemma insert_key_hdrel z kx l l' :
  Queue.insert_key kx l = Ok l' -> HdRel key_rel z l -> key_rel z kx -> HdRel key_rel z l'.
Proof.
  destruct l as [|ky r]; simpl; intros H Hd Hz.
  - inversion H. constructor. auto.
  - destruct (py_lt (fst ky) (fst kx)) as [[|]|e]; simpl in H; try discriminate.
    + destruct (Queue.insert_key kx r); simpl in H; [|discriminate].
      inversion H; subst. inversion Hd; subst. constructor. auto.
    + inversion H. constructor. auto.
Qed.

Lemma insert_key_sorted kx l l' :
  Sorted key_rel l -> Queue.insert_key kx l = Ok l' -> Sorted key_rel l'.
Proof.
  revert l'. induction l as [|ky r IH]; intros l' Hs H; simpl in H.
  - inversion H. repeat constructor.
  - destruct (py_lt (fst ky) (fst kx)) as [[|]|e] eqn:Elt; simpl in H; try discriminate.
    + destruct (Queue.insert_key kx r) as [r'|e] eqn:E; simpl in H; [|discriminate].
      inversion H; subst. inversion Hs; subst. constructor.
      * now apply IH.
      * eapply insert_key_hdrel; eauto. unfold key_rel. now apply py_lt_asym.
    + inversion H; subst. constructor; [assumption|]. constructor. exact Elt.
Qed.

Lemma isort_sorted l l' : Queue.isort l = Ok l' -> Sorted key_rel l'.
Proof.
  revert l'. induction l as [|kx r IH]; intros l' H; simpl in H.
  - inversion H. constructor.
  - destruct (Queue.isort r) as [r'|e] eqn:E; simpl in H; [|discriminate].
    eapply insert_key_sorted; [apply IH; reflexivity|exact H].
Qed.

Lemma sorted_keys_map tsf ps :
  Forall (fun p => dict_index (snd p) tsf = Ok (fst p)) ps ->
  Sorted key_rel ps -> Sorted (key_le tsf) (map snd ps).
Proof.
  intros Hf Hs. induction Hs as [|p ps Hs IH Hd]; simpl; constructor.
  - apply IH. now inversion Hf.
  - destruct Hd as [|q ps' Hpq]; simpl; constructor.
    inversion Hf as [|? ? Hp Hf']; subst. inversion Hf'; subst.
    exists (fst p), (fst q). auto.
Qed.

Lemma sort_by_key_sorted tsf xs ys :
  Queue.sort_by_key tsf xs = Ok ys -> Sorted (key_le tsf) ys.
Proof.
  unfold Queue.sort_by_key. intros H.
  destruct (map_res _ xs) as [ks|e] eqn:Ek; simpl in H; [|discriminate].
  destruct (Queue.isort (combine ks xs)) as [ps|e] eqn:Ep; simpl in H; [|discriminate].
  inversion H; subst.
  apply sorted_keys_map; [|eapply isort_sorted; eauto].
  apply map_res_Forall2, Forall2_combine_keys in Ek.
  apply Forall_forall. intros p Hp. rewrite Forall_forall in Ek.
  apply Ek. eapply Permutation_in; [apply Permutation_sym, isort_perm; eauto|exact Hp].
Qed.

Lemma queue_init_inv h l tsf h' q :
  Queue.init h l tsf = Ok (h', q) ->
  exists ys, Queue.sort_by_key tsf (h l) = Ok ys /\ h' = Queue.hupd h l ys
             /\ q = Queue.DQ l tsf (length ys) 0.
Proof.
  unfold Queue.init. destruct (Queue.sort_by_key tsf (h l)) as [ys|e]; simpl; intros H;
    [|discriminate].
  inversion H; subst. eauto.
Qed.

Lemma run_exhausted h q m :
  (Queue.num_datapoints q <= Queue.next_data_pointer q)%nat ->
  snd (Queue.run h q m) = repeat (Err StopIteration) m.
Proof.
  intros Hle. induction m as [|m IH]; simpl; [reflexivity|].
  unfold Queue.next. apply Nat.leb_le in Hle. rewrite Hle.
  destruct (Queue.run h q m) as [q2 rs] eqn:E. simpl in *. now rewrite IH.
Qed.

Lemma skipn_nth_error {A} (ys : list A) n y :
  nth_error ys n = Some y -> skipn n ys = y :: skipn (S n) ys.
Proof.
  revert ys. induction n as [|n IH]; intros [|x ys] H; simpl in *; try discriminate.
  - now inversion H.
  - now apply IH.
Qed.

Lemma run_from h q k m ys :
  h (Queue.dq_data q) = ys -> Queue.num_datapoints q = length ys ->
  (Queue.next_data_pointer q + k = length ys)%nat ->
  snd (Queue.run h q (k + m)) =
  map Ok (skipn (Queue.next_data_pointer q) ys) ++ repeat (Err StopIteration) m.
Proof.
  revert q. induction k as [|k IH]; intros q Hd Hn Hp.
  - rewrite Nat.add_0_r in Hp. rewrite skipn_all2 by lia. simpl.
    apply run_exhausted. lia.
  - destruct (nth_error ys (Queue.next_data_pointer q)) as [y|] eqn:Ey;
      [|apply nth_error_None in Ey; lia].
    rewrite (skipn_nth_error _ _ _ Ey). simpl.
    unfold Queue.next at 1.
    assert (Nat.leb (Queue.num_datapoints q) (Queue.next_data_pointer q) = false) as ->
      by (apply Nat.leb_gt; lia).
    rewrite Hd, Ey.
    destruct (Queue.run h _ (k + m)) as [q2 rs] eqn:E.
    simpl. f_equal.
    specialize (IH (Queue.DQ (Queue.dq_data q) (Queue.dq_timestamp_field_name q)
                     (Queue.num_datapoints q) (S (Queue.next_data_pointer q))) Hd Hn).
    simpl in IH. rewrite E in IH. simpl in IH. apply IH. lia.
Qed.

End QueueFacts.

(** Claim C4: a queue built from [N] records yields them on the first [N]
    calls of [next]; every later call, however many, raises
    [StopIteration]. *)
Theorem data_queue_exhaustion h l tsf h' q m :
  Queue.init h l tsf = Ok (h', q) ->
  length (h' l) = length (h l) /\
  snd (Queue.run h' q (length (h l) + m)) = map Ok (h' l) ++ repeat (Err StopIteration) m.
Proof.
  intros H. destruct (queue_init_inv _ _ _ _ _ H) as (ys & Hs & -> & ->).
  assert (Queue.hupd h l ys l = ys) as Hl
    by (unfold Queue.hupd; now rewrite Nat.eqb_refl).
  assert (length ys = length (h l)) as Hlen
    by (symmetry; apply Permutation_length; eapply sort_by_key_perm; eauto).
  rewrite Hl. split; [exact Hlen|].
  rewrite <- Hlen.
  pose proof (run_from (Queue.hupd h l ys) (Queue.DQ l tsf (length ys) 0) (length ys) m ys)
    as Hr.
  simpl in Hr. apply Hr; auto.
Qed.

(** Claim C10: [DataQueue(data, ...)] sorts the caller's list object in
    place and keeps that very object: after construction the queue refers
    to the caller's location, whose contents are now a permutation of the
    old ones sorted by the timestamp key; no other list is touched. *)
Theorem data_queue_sorts_caller_list_in_place h l tsf h' q :
  Queue.init h l tsf = Ok (h', q) ->
  Queue.dq_data q = l /\ Permutation (h l) (h' l) /\ Sorted (key_le tsf) (h' l)
  /\ (forall l', l' <> l -> h' l' = h l').
Proof.
  intros H. destruct (queue_init_inv _ _ _ _ _ H) as (ys & Hs & -> & ->).
  unfold Queue.hupd. rewrite Nat.eqb_refl. simpl.
  split; [reflexivity|]. split; [eapply sort_by_key_perm; eauto|].
  split; [eapply sort_by_key_sorted; eauto|].
  intros l' Hne. apply Nat.eqb_neq in Hne. now rewrite Hne.
Qed.

(** ** [write_data] on the in-memory store *)

(** Claim C7: when datum [d] is the first of a batch to fail validation,
    [write_data] raises, the data before it stay appended and neither [d]
    nor the data after it are stored. *)
Theorem write_data_batch_keeps_prefix s pre d post :
  forallb (mem_valid s) pre = true -> mem_valid s d = false ->
  Memory.write_data s (Memory.Many (pre ++ d :: post))
  = (Memory.MemDB (Memory.timestamp_field_name s) (Memory.object_id_field_name s)
                  (Memory.data s ++ pre), Some ValueError).
Proof.
  destruct s as [tsf oidf dat]. simpl. revert dat.
  induction pre as [|x pre IH]; intros dat Hpre Hd; simpl in *.
  - rewrite app_nil_r. unfold mem_valid in Hd. simpl in Hd.
    destruct (Memory.field_missing tsf d), (Memory.field_missing oidf d);
      simpl in *; congruence.
  - apply andb_true_iff in Hpre as [Hx Hpre].
    unfold mem_valid in Hx. simpl in Hx.
    destruct (Memory.field_missing tsf x), (Memory.field_missing oidf x);
      simpl in Hx; try discriminate.
    unfold Memory.append. simpl. rewrite IH; auto.
    now rewrite <- app_assoc.
Qed.

(** ** Witnesses *)

Lemma data_queue_exhaustion_witness :
  Queue.init heap_two 0%nat (Some "timestamp") = Ok (heap_two_sorted, queue_two) /\
  length (heap_two_sorted 0%nat) = length (heap_two 0%nat) /\
  snd (Queue.run heap_two_sorted queue_two (length (heap_two 0%nat) + 3%nat))
  = map Ok (heap_two_sorted 0%nat) ++ repeat (Err StopIteration) 3%nat.
Proof.
  assert (H : Queue.init heap_two 0%nat (Some "timestamp") = Ok (heap_two_sorted, queue_two))
    by (vm_compute; reflexivity).
  split; [exact H|]. exact (data_queue_exhaustion _ _ _ _ _ 3%nat H).
Defined.

Lemma data_queue_sorts_caller_list_in_place_witness :
  Queue.init heap_two 0%nat (Some "timestamp") = Ok (heap_two_sorted, queue_two) /\
  (Queue.dq_data queue_two = 0%nat /\ Permutation (heap_two 0%nat) (heap_two_sorted 0%nat)
   /\ Sorted (key_le (Some "timestamp")) (heap_two_sorted 0%nat)
   /\ (forall l', l' <> 0%nat -> heap_two_sorted l' = heap_two l')).
Proof.
  assert (H : Queue.init heap_two 0%nat (Some "timestamp") = Ok (heap_two_sorted, queue_two))
    by (vm_compute; reflexivity).
  split; [exact H|]. exact (data_queue_sorts_caller_list_in_place _ _ _ _ _ H).
Defined.

Lemma write_data_batch_keeps_prefix_witness :
  let s := Memory.init (Some "timestamp") (Some "object_id") in
  let ok := [("timestamp", PStr "2024-01-01T00:00:00Z"); ("object_id", PStr "a")] in
  let bad := [("object_id", PStr "b")] in
  forallb (mem_valid s) [ok] = true /\ mem_valid s bad = false /\
  Memory.write_data s (Memory.Many ([ok] ++ bad :: [ok]))
  = (Memory.MemDB (Some "timestamp") (Some "object_id") ([] ++ [ok]), Some ValueError).
Proof.
  intros s ok bad.
  assert (H1 : forallb (mem_valid s) [ok] = true) by reflexivity.
  assert (H2 : mem_valid s bad = false) by reflexivity.
  split; [exact H1|]. split; [exact H2|].
  exact (write_data_batch_keeps_prefix s [ok] bad [ok] H1 H2).
Defined.

(** ** Fetch: the filter predicate *)

Lemma dget_dset d k v k' :
  dget (dset d k v) k' = if String.eqb k k' then Some v else dget d k'.
Proof.
  induction d as [|[k1 v1] r IH]; simpl.
  - reflexivity.
  - destruct (String.eqb_spec k1 k) as [->|Hne]; simpl.
    + destruct (String.eqb k k'); reflexivity.
    + rewrite IH. destruct (String.eqb_spec k1 k') as [->|Hne2]; [|reflexivity].
      destruct (String.eqb_spec k k'); congruence.
Qed.

Lemma dget_dupdate_absent d e k :
  has_key e k = false -> dget (dupdate d e) k = dget d k.
Proof.
  unfold dupdate. revert d. induction e as [|[k1 v1] r IH]; intros d He; simpl in *; [reflexivity|].
  apply orb_false_iff in He as [H1 H2]. rewrite IH by exact H2.
  rewrite dget_dset, H1. reflexivity.
Qed.

Lemma dget_dupdate_agree a b e x k :
  (forall k', k' <> x -> dget a k' = dget b k') -> k <> x ->
  dget (dupdate a e) k = dget (dupdate b e) k.
Proof.
  unfold dupdate. revert a b. induction e as [|[k1 v1] r IH]; intros a b Hab Hk; simpl;
    [now apply Hab|].
  apply IH; [|exact Hk]. intros k' Hk'. rewrite !dget_dset.
  destruct (String.eqb k1 k'); [reflexivity|]. now apply Hab.
Qed.

Lemma map_res_combine {A B} (f h : A -> res B) (g : A * B -> B) l l' :
  Forall2 (fun x y => f x = Ok y) l l' ->
  (forall x y, f x = Ok y -> h x = Ok (g (x, y))) ->
  map_res h l = Ok (map g (combine l l')).
Proof.
  induction 1 as [|x y l l' Hxy Hl IH]; intros Hh; simpl; [reflexivity|].
  rewrite (Hh _ _ Hxy). simpl. rewrite (IH Hh). reflexivity.
Qed.

Lemma Forall2_combine_in {A B} (P : A -> B -> Prop) l l' x y :
  Forall2 P l l' -> In (x, y) (combine l l') -> P x y.
Proof.
  induction 1 as [|a b l l' Hab Hl IH]; simpl; [contradiction|].
  intros [H|H]; [inversion H; subst; exact Hab|exact (IH H)].
Qed.

Section FetchFacts.

Lemma dt_lt_comparable a b :
  comparable a b = true -> dt_lt a b = Ok (dt_key a <? dt_key b).
Proof. unfold dt_lt. now intros ->. Qed.

Lemma mem_ts_index s r t :
  mem_ts s r = Some t ->
  exists v, dict_index r (Memory.timestamp_field_name s) = Ok v /\ dateutil_parse v = Ok t.
Proof.
  unfold mem_ts. destruct (Memory.timestamp_field_name s) as [f|]; [|discriminate].
  simpl. destruct (dget r f) as [v|]; [|discriminate].
  destruct (dateutil_parse v) eqn:E; intros H; inversion H; subst; eauto.
Qed.

Lemma mem_oid_index s r o :
  mem_oid s r = Some o -> dict_index r (Memory.object_id_field_name s) = Ok o.
Proof.
  unfold mem_oid. destruct (Memory.object_id_field_name s) as [f|]; [|discriminate].
  simpl. now intros ->.
Qed.

Lemma mem_keep_spec s sdt edt ids r :
  record_ok (mem_ts s) (mem_oid s) sdt edt ids r ->
  Memory.keep s sdt edt ids r = Ok (spec_select (mem_ts s) (mem_oid s) sdt edt ids r).
Proof.
  intros [Ht Ho]. unfold Memory.keep, spec_select.
  assert (Hids : match ids with
                 | None => Ok true
                 | Some l => v <- dict_index r (Memory.object_id_field_name s) ;; Ok (py_in v l)
                 end = Ok (match ids with
                           | None => true
                           | Some l => match mem_oid s r with Some o => py_in o l | None => false end
                           end)).
  { destruct ids as [l|]; [|reflexivity].
    destruct (mem_oid s r) as [o|] eqn:Eo; [|exfalso; apply (Ho eq_refl eq_refl)].
    now rewrite (mem_oid_index _ _ _ Eo). }
  destruct sdt as [st|], edt as [en|]; simpl in Ht.
  - destruct (Ht eq_refl) as (t & Et & Hb). simpl in Hb. apply andb_true_iff in Hb as [H1 H2].
    destruct (mem_ts_index _ _ _ Et) as (v & Ei & Ep). rewrite Et.
    simpl. rewrite Ei. simpl. rewrite Ep. simpl. rewrite dt_lt_comparable by exact H1.
    simpl. rewrite (Z.leb_antisym (dt_key t) (dt_key st)).
    destruct (dt_key t <? dt_key st); simpl; [reflexivity|].
    rewrite dt_lt_comparable by exact H2. simpl.
    rewrite (Z.leb_antisym (dt_key en) (dt_key t)).
    destruct (dt_key en <? dt_key t); simpl; [reflexivity|]. exact Hids.
  - destruct (Ht eq_refl) as (t & Et & Hb). unfold bounds_ok in Hb. rewrite andb_true_r in Hb.
    destruct (mem_ts_index _ _ _ Et) as (v & Ei & Ep). rewrite Et.
    simpl. rewrite Ei. simpl. rewrite Ep. simpl. rewrite dt_lt_comparable by exact Hb.
    simpl. rewrite (Z.leb_antisym (dt_key t) (dt_key st)).
    destruct (dt_key t <? dt_key st); simpl; [reflexivity|]. exact Hids.
  - destruct (Ht eq_refl) as (t & Et & Hb). simpl in Hb.
    destruct (mem_ts_index _ _ _ Et) as (v & Ei & Ep). rewrite Et.
    simpl. rewrite Ei. simpl. rewrite Ep. simpl. rewrite dt_lt_comparable by exact Hb. simpl.
    rewrite (Z.leb_antisym (dt_key en) (dt_key t)).
    destruct (dt_key en <? dt_key t); simpl; [reflexivity|]. exact Hids.
  - simpl. exact Hids.
Qed.

Lemma mem_fetch_loop_spec s sdt edt ids l :
  Forall (record_ok (mem_ts s) (mem_oid s) sdt edt ids) l ->
  Memory.fetch_loop s sdt edt ids None l
  = Ok (filter (spec_select (mem_ts s) (mem_oid s) sdt edt ids) l).
Proof.
  induction 1 as [|r l Hr Hl IH]; simpl; [reflexivity|].
  rewrite (mem_keep_spec _ _ _ _ _ Hr). simpl. rewrite IH. simpl.
  destruct (spec_select _ _ _ _ _ r); reflexivity.
Qed.

Lemma csv_fetch_keep_spec sdt edt ids r :
  record_ok csv_ts csv_oid sdt edt ids r ->
  CSV.fetch_keep sdt edt ids r = Ok (spec_select csv_ts csv_oid sdt edt ids r).
Proof.
  intros [Ht Ho]. unfold CSV.fetch_keep, spec_select.
  assert (Hids : match ids with
                 | None => Ok true
                 | Some l => v <- dict_index r (Some "object_id") ;; Ok (py_in v l)
                 end = Ok (match ids with
                           | None => true
                           | Some l => match csv_oid r with Some o => py_in o l | None => false end
                           end)).
  { destruct ids as [l|]; [|reflexivity].
    destruct (csv_oid r) as [o|] eqn:Eo; [|exfalso; apply (Ho eq_refl eq_refl)].
    unfold csv_oid in Eo. simpl. now rewrite Eo. }
  assert (Hi : forall t, csv_ts r = Some t -> dict_index r (Some "timestamp") = Ok (PDt t)).
  { unfold csv_ts. intros t. simpl. destruct (dget r "timestamp") as [[]|]; try discriminate.
    intros H. inversion H. reflexivity. }
  destruct sdt as [st|], edt as [en|]; simpl in Ht.
  - destruct (Ht eq_refl) as (t & Et & Hb). simpl in Hb. apply andb_true_iff in Hb as [H1 H2].
    rewrite Et, (Hi _ Et). simpl. rewrite dt_lt_comparable by exact H1. simpl.
    rewrite (Z.leb_antisym (dt_key t) (dt_key st)).
    destruct (dt_key t <? dt_key st); simpl; [reflexivity|].
    rewrite dt_lt_comparable by exact H2. simpl.
    rewrite (Z.leb_antisym (dt_key en) (dt_key t)).
    destruct (dt_key en <? dt_key t); simpl; [reflexivity|]. exact Hids.
  - destruct (Ht eq_refl) as (t & Et & Hb). unfold bounds_ok in Hb. rewrite andb_true_r in Hb.
    rewrite Et, (Hi _ Et). simpl. rewrite dt_lt_comparable by exact Hb. simpl.
    rewrite (Z.leb_antisym (dt_key t) (dt_key st)).
    destruct (dt_key t <? dt_key st); simpl; [reflexivity|]. exact Hids.
  - destruct (Ht eq_refl) as (t & Et & Hb). simpl in Hb.
    rewrite Et, (Hi _ Et). simpl. rewrite dt_lt_comparable by exact Hb. simpl.
    rewrite (Z.leb_antisym (dt_key en) (dt_key t)).
    destruct (dt_key en <? dt_key t); simpl; [reflexivity|]. exact Hids.
  - simpl. exact Hids.
Qed.

Lemma csv_fetch_rows_spec s sdt edt ids hdr rs R :
  map_res (CSV.decode s hdr) rs = Ok R ->
  Forall (record_ok csv_ts csv_oid sdt edt ids) R ->
  CSV.fetch_rows s sdt edt ids hdr rs = Ok (filter (spec_select csv_ts csv_oid sdt edt ids) R).
Proof.
  revert R. induction rs as [|r rs IH]; intros R Hd HR; simpl in Hd.
  - inversion Hd; subst. reflexivity.
  - destruct (CSV.decode s hdr r) as [vd|e] eqn:Ev; simpl in Hd; [|discriminate].
    destruct (map_res (CSV.decode s hdr) rs) as [R'|e] eqn:ER; simpl in Hd; [|discriminate].
    inversion Hd; subst. inversion HR; subst.
    simpl. rewrite Ev. simpl. rewrite (csv_fetch_keep_spec _ _ _ _ H1). simpl.
    rewrite (IH R' eq_refl H2). simpl.
    destruct (spec_select _ _ _ _ _ vd); reflexivity.
Qed.

Lemma mem_fetch_data_loop s start_time end_time ids fields sdt edt :
  (is_some start_time || is_some end_time = true ->
     is_some (Memory.timestamp_field_name s) = true) ->
  (is_some ids = true -> is_some (Memory.object_id_field_name s) = true) ->
  opt_res dateutil_parse start_time = Ok sdt ->
  opt_res dateutil_parse end_time = Ok edt ->
  Memory.fetch_data s start_time end_time ids fields
  = Memory.fetch_loop s sdt edt ids fields (Memory.data s).
Proof.
  intros Hts Hid Hs He. unfold Memory.fetch_data.
  destruct (is_some start_time || is_some end_time) eqn:E1;
    [rewrite (Hts eq_refl)|]; simpl;
  (destruct (is_some ids) eqn:E2; [rewrite (Hid eq_refl)|]; simpl);
  rewrite Hs; simpl; rewrite He; reflexivity.
Qed.

Lemma mem_fetch_data_spec s start_time end_time ids sdt edt :
  (is_some start_time || is_some end_time = true ->
     is_some (Memory.timestamp_field_name s) = true) ->
  (is_some ids = true -> is_some (Memory.object_id_field_name s) = true) ->
  opt_res dateutil_parse start_time = Ok sdt ->
  opt_res dateutil_parse end_time = Ok edt ->
  Forall (record_ok (mem_ts s) (mem_oid s) sdt edt ids) (Memory.data s) ->
  Memory.fetch_data s start_time end_time ids None
  = Ok (filter (spec_select (mem_ts s) (mem_oid s) sdt edt ids) (Memory.data s)).
Proof.
  intros Hts Hid Hs He Hr. rewrite (mem_fetch_data_loop _ _ _ _ _ _ _ Hts Hid Hs He).
  now apply mem_fetch_loop_spec.
Qed.

Lemma csv_fetch_data_rows fs s start_time end_time ids sdt edt rows :
  CSV.time_series_database s && CSV.object_database s = true ->
  opt_res python_datetime_utc start_time = Ok sdt ->
  opt_res python_datetime_utc end_time = Ok edt ->
  fs (CSV.path s) = Some rows ->
  CSV.fetch_data_object_time_series fs s start_time end_time ids
  = CSV.fetch_rows s sdt edt ids (CSV.hdr_of rows) (CSV.body rows).
Proof.
  intros Hdb Hs He Hrows. unfold CSV.fetch_data_object_time_series. rewrite Hdb. simpl.
  rewrite Hs. simpl. rewrite He. simpl. unfold CSV.read_file. rewrite Hrows. reflexivity.
Qed.

Lemma csv_ts_index r t : csv_ts r = Some t -> dict_index r (Some "timestamp") = Ok (PDt t).
Proof.
  unfold csv_ts. simpl. destruct (dget r "timestamp") as [[]|]; try discriminate.
  intros H. inversion H. reflexivity.
Qed.

(** The comparisons of [keep] and [fetch_keep] raise as [bound_type_error] says. *)
Lemma mem_keep_type_error s sdt edt ids r t :
  mem_ts s r = Some t -> bound_type_error t sdt edt = true ->
  Memory.keep s sdt edt ids r = Err TypeError.
Proof.
  intros Ht Hb. destruct (mem_ts_index _ _ _ Ht) as (v & Hi & Hp).
  unfold Memory.keep. unfold bound_type_error in Hb.
  destruct sdt as [st|].
  - rewrite Hi. simpl. rewrite Hp. simpl. unfold dt_lt at 1.
    destruct (comparable t st); [|reflexivity]. simpl.
    destruct (dt_key t <? dt_key st); simpl in Hb; [discriminate|].
    destruct edt as [en|]; [|discriminate].
    unfold dt_lt. destruct (comparable en t); [discriminate|reflexivity].
  - destruct edt as [en|]; [|discriminate]. rewrite Hi. simpl. rewrite Hp. simpl.
    unfold dt_lt. destruct (comparable en t); [discriminate|reflexivity].
Qed.

Lemma csv_keep_type_error sdt edt ids r t :
  csv_ts r = Some t -> bound_type_error t sdt edt = true ->
  CSV.fetch_keep sdt edt ids r = Err TypeError.
Proof.
  intros Ht Hb. pose proof (csv_ts_index _ _ Ht) as Hi.
  unfold CSV.fetch_keep. unfold bound_type_error in Hb.
  destruct sdt as [st|].
  - rewrite Hi. simpl. unfold dt_lt at 1.
    destruct (comparable t st); [|reflexivity]. simpl.
    destruct (dt_key t <? dt_key st); simpl in Hb; [discriminate|].
    destruct edt as [en|]; [|discriminate].
    unfold dt_lt. destruct (comparable en t); [discriminate|reflexivity].
  - destruct edt as [en|]; [|discriminate]. rewrite Hi. simpl.
    unfold dt_lt. destruct (comparable en t); [discriminate|reflexivity].
Qed.

(** The loops stop at the first record whose test raises. *)
Lemma mem_fetch_loop_err s sdt edt ids fields pre r post e :
  Forall (record_ok (mem_ts s) (mem_oid s) sdt edt ids) pre ->
  Memory.keep s sdt edt ids r = Err e ->
  Memory.fetch_loop s sdt edt ids fields (pre ++ r :: post) = Err e.
Proof.
  intros Hpre Hr. induction Hpre as [|x pre Hx Hpre IH]; simpl.
  - rewrite Hr. reflexivity.
  - rewrite (mem_keep_spec _ _ _ _ _ Hx). simpl. rewrite IH. reflexivity.
Qed.

Lemma csv_fetch_rows_err s sdt edt ids hdr rs pre r post e :
  map_res (CSV.decode s hdr) rs = Ok (pre ++ r :: post) ->
  Forall (record_ok csv_ts csv_oid sdt edt ids) pre ->
  CSV.fetch_keep sdt edt ids r = Err e ->
  CSV.fetch_rows s sdt edt ids hdr rs = Err e.
Proof.
  revert pre. induction rs as [|x rs IH]; intros pre Hd Hpre Hr; simpl in Hd.
  - injection Hd as Hd. destruct pre; discriminate.
  - destruct (CSV.decode s hdr x) as [vd|e'] eqn:Ev; simpl in Hd; [|discriminate].
    destruct (map_res (CSV.decode s hdr) rs) as [R'|e'] eqn:ER; simpl in Hd; [|discriminate].
    injection Hd as Hd. simpl. rewrite Ev. simpl.
    destruct pre as [|y pre]; simpl in Hd; injection Hd as -> ->.
    + rewrite Hr. reflexivity.
    + inversion Hpre as [|? ? Hy Hpre']; subst. rewrite (csv_fetch_keep_spec _ _ _ _ Hy). simpl.
      rewrite (IH pre eq_refl Hpre' Hr). reflexivity.
Qed.

End FetchFacts.

(** An aware bound whose UTC conversion leaves years 1..9999 makes
    [_python_datetime_utc] raise [OverflowError]. *)
Lemma python_datetime_utc_overflow t d :
  dateutil_parse (PStr t) = Ok d -> dt_off d <> None -> dt_in_range (to_utc d) = false ->
  python_datetime_utc (PStr t) = Err OverflowError.
Proof.
  intros Hp Ho Hr. simpl. simpl in Hp. rewrite Hp. simpl.
  unfold utc_of. destruct (dt_off d); [|contradiction].
  unfold astimezone_utc. rewrite Hr. reflexivity.
Qed.



(** ** Construction of the file-backed store *)

Lemma row_eqb_eq a b : CSV.row_eqb a b = true -> a = b.
Proof.
  revert b. induction a as [|x a IH]; intros [|y b] H; simpl in H; try discriminate; auto.
  apply andb_true_iff in H as [Hx Hb]. apply String.eqb_eq in Hx. subst. f_equal. auto.
Qed.

(** Claim C8 (amended): an invalid configuration (neither a time series
    nor an object database, or a data field named [timestamp] or
    [object_id]) makes the constructor raise [ValueError] whatever the file
    system holds, before the path is looked at. For a valid configuration,
    an existing file whose header differs from the field names makes the
    constructor raise, leaving the file system as it was; when no file
    exists, the constructor creates it with the header row only. *)
Theorem csv_init_header_check p tsdb objdb data_field_names to_str from_str :
  (negb tsdb && negb objdb || CSV.reserved_in "timestamp" data_field_names
     || CSV.reserved_in "object_id" data_field_names = true ->
   forall fs, CSV.init fs p tsdb objdb data_field_names to_str from_str = Err ValueError)
  /\ (negb tsdb && negb objdb || CSV.reserved_in "timestamp" data_field_names
        || CSV.reserved_in "object_id" data_field_names = false ->
      (forall fs rows, fs p = Some rows ->
         CSV.header rows <> Some (CSV.make_field_names tsdb objdb data_field_names) ->
         exists e, CSV.init fs p tsdb objdb data_field_names to_str from_str = Err e)
      /\ (forall fs, fs p = None ->
          exists s, CSV.init fs p tsdb objdb data_field_names to_str from_str
                    = Ok (CSV.fs_set fs p (Some [CSV.make_field_names tsdb objdb data_field_names]), s))).
Proof.
  unfold CSV.init. split.
  - intros H fs.
    destruct (negb tsdb && negb objdb); [reflexivity|].
    destruct (CSV.reserved_in "timestamp" data_field_names); [reflexivity|].
    destruct (CSV.reserved_in "object_id" data_field_names); [reflexivity|]. discriminate H.
  - intros H. apply orb_false_iff in H as [H Hoid]. apply orb_false_iff in H as [Hcfg Hts].
    rewrite Hcfg, Hts, Hoid. split.
    + intros fs rows Hrows Hh. rewrite Hrows.
      destruct (CSV.header rows) as [h|] eqn:Eh; [|eauto].
      destruct (CSV.row_eqb h _) eqn:E; [|eauto].
      apply row_eqb_eq in E. subst. exfalso. now apply Hh.
    + intros fs Hnone. rewrite Hnone. eauto.
Qed.

Lemma csv_init_header_check_witness :
  let fs := CSV.fs_set no_files "db.csv" (Some [["time"; "id"]]) in
  CSV.init fs "db.csv" false false None [] [] = Err ValueError
  /\ CSV.init fs "db.csv" true true (Some ["timestamp"]) [] [] = Err ValueError
  /\ CSV.init no_files "db.csv" true false (Some ["x"; "object_id"]) [] [] = Err ValueError
  /\ (exists e, CSV.init fs "db.csv" true true None [] [] = Err e)
  /\ exists s, CSV.init no_files "db.csv" true true None [] []
               = Ok (CSV.fs_set no_files "db.csv" (Some [CSV.make_field_names true true None]), s).
Proof.
  intros fs.
  split; [exact (proj1 (csv_init_header_check "db.csv" false false None [] []) eq_refl fs)|].
  split; [exact (proj1 (csv_init_header_check "db.csv" true true (Some ["timestamp"]) [] [])
                   eq_refl fs)|].
  split; [exact (proj1 (csv_init_header_check "db.csv" true false (Some ["x"; "object_id"]) [] [])
                   eq_refl no_files)|].
  destruct (proj2 (csv_init_header_check "db.csv" true true None [] []) eq_refl) as [Hm Hc].
  split.
  - apply (Hm fs [["time"; "id"]]); [reflexivity|]. intros H. discriminate H.
  - apply Hc. reflexivity.
Defined.

(** ** Writing: schema checks *)

(** Claim C6 (amended): the in-memory store rejects, with [ValueError] and
    without storing it, a datum whose keys lack a configured timestamp or
    object-id field, and stores a datum that has both keys whatever their
    values, [None] included. The file-backed store raises, before touching
    the file, when the timestamp is [None]. It does not check the object id:
    when a write of [data] (which holds no [object_id] key) with some object
    id succeeds, the same write with a [None] object id succeeds too and
    appends the same row with empty cells in the [object_id] columns. *)
Theorem write_schema_checks :
  (forall s d, mem_valid s d = false ->
     Memory.write_data s (Memory.One d) = (s, Some ValueError))
  /\ (forall s d, mem_valid s d = true ->
     Memory.write_data s (Memory.One d) = (Memory.append s d, None))
  /\ (forall fs s object_id data,
     exists e, CSV.write_data_object_time_series fs s PNone object_id data = Err e)
  /\ (forall fs s timestamp object_id data fs1,
     has_key data "object_id" = false ->
     CSV.write_data_object_time_series fs s timestamp object_id data = Ok fs1 ->
     exists r, fs1 = CSV.fs_append fs (CSV.path s) r
       /\ CSV.write_data_object_time_series fs s timestamp PNone data
          = Ok (CSV.fs_append fs (CSV.path s)
                  (map (fun fc => if String.eqb (fst fc) "object_id" then EmptyString else snd fc)
                       (combine (CSV.field_names s) r)))).
Proof.
  split; [|split; [|split]].
  - intros s d H. unfold mem_valid in H. simpl.
    destruct (Memory.field_missing (Memory.timestamp_field_name s) d),
             (Memory.field_missing (Memory.object_id_field_name s) d);
      simpl in *; congruence.
  - intros s d H. unfold mem_valid in H. simpl.
    destruct (Memory.field_missing (Memory.timestamp_field_name s) d),
             (Memory.field_missing (Memory.object_id_field_name s) d);
      simpl in *; congruence.
  - intros fs s object_id data. unfold CSV.write_data_object_time_series.
    destruct (negb _); eexists; reflexivity.
  - intros fs s timestamp object_id data fs1 Hd Hw.
    unfold CSV.write_data_object_time_series in Hw |- *.
    destruct (negb _); [discriminate|].
    destruct (python_datetime_utc timestamp) as [u|e]; simpl in Hw |- *; [|discriminate].
    destruct (map_res _ (CSV.field_names s)) as [r|e] eqn:Er; simpl in Hw; [|discriminate].
    injection Hw as <-. exists r. split; [reflexivity|].
    apply map_res_Forall2 in Er.
    rewrite (map_res_combine _ _
      (fun fc => if String.eqb (fst fc) "object_id" then EmptyString else snd fc) _ _ Er);
      [reflexivity|].
    intros f c Hc. cbn [fst snd]. destruct (String.eqb_spec f "object_id") as [->|Hne].
    + rewrite dget_dupdate_absent by exact Hd. reflexivity.
    + rewrite <- Hc. f_equal.
      rewrite (dget_dupdate_agree _ [("timestamp", PDt u); ("object_id", object_id)] _ "object_id");
        [reflexivity| |exact Hne].
      intros k' Hk'. cbn [dget fst snd]. destruct (String.eqb "timestamp" k'); [reflexivity|].
      destruct (String.eqb_spec "object_id" k'); [congruence|reflexivity].
Qed.

Lemma write_schema_checks_witness :
  let s := Memory.init (Some "timestamp") (Some "object_id") in
  let d := [("timestamp", PNone); ("object_id", PStr "a")] in
  let c := CSV.CSVDB "db.csv" true true ["timestamp"; "object_id"; "x"] [] [] in
  let row := ["2024-01-01T00:00:00+00:00"; "a"; "7"] in
  mem_valid s [("object_id", PStr "a")] = false
  /\ Memory.write_data s (Memory.One [("object_id", PStr "a")]) = (s, Some ValueError)
  /\ mem_valid s d = true
  /\ Memory.write_data s (Memory.One d) = (Memory.append s d, None)
  /\ CSV.write_data_object_time_series no_files c (PStr "2024-01-01T00:00:00Z") (PStr "a") [("x", PStr "7")]
     = Ok (CSV.fs_append no_files "db.csv" row)
  /\ (exists r, CSV.fs_append no_files "db.csv" row = CSV.fs_append no_files (CSV.path c) r
       /\ CSV.write_data_object_time_series no_files c (PStr "2024-01-01T00:00:00Z") PNone
            [("x", PStr "7")]
          = Ok (CSV.fs_append no_files (CSV.path c)
                  (map (fun fc => if String.eqb (fst fc) "object_id" then EmptyString else snd fc)
                       (combine (CSV.field_names c) r))))
  /\ CSV.write_data_object_time_series no_files c (PStr "2024-01-01T00:00:00Z") PNone [("x", PStr "7")]
     = Ok (CSV.fs_append no_files "db.csv" ["2024-01-01T00:00:00+00:00"; EmptyString; "7"]).
Proof.
  intros s d c row. destruct write_schema_checks as (Ha & Hb & _ & Hd).
  assert (H1 : mem_valid s [("object_id", PStr "a")] = false) by reflexivity.
  assert (H2 : mem_valid s d = true) by reflexivity.
  assert (H3 : CSV.write_data_object_time_series no_files c (PStr "2024-01-01T00:00:00Z") (PStr "a")
                 [("x", PStr "7")] = Ok (CSV.fs_append no_files "db.csv" row))
    by (vm_compute; reflexivity).
  split; [exact H1|]. split; [exact (Ha _ _ H1)|]. split; [exact H2|].
  split; [exact (Hb _ _ H2)|]. split; [exact H3|]. assert (H4 : has_key [("x", PStr "7")] "object_id" = false) by reflexivity.
  split; [exact (Hd _ _ _ _ _ _ H4 H3)|].
  vm_compute. reflexivity.
Defined.

(** ** Time bounds and time zones *)

Section TimezoneFacts.

Lemma utc_of_aware x d : utc_of x = Ok d -> dt_off d = Some 0.
Proof.
  unfold utc_of, astimezone_utc, to_utc. destruct (dt_off x); [destruct (dt_in_range _)|];
    intros H; inversion H; reflexivity.
Qed.

Lemma python_datetime_utc_aware v d : python_datetime_utc v = Ok d -> dt_off d = Some 0.
Proof.
  intros H. destruct v as [| |str|x]; simpl in H; try discriminate.
  - destruct (parse_iso str) as [x|]; simpl in H; [|discriminate].
    exact (utc_of_aware _ _ H).
  - destruct (utc_of x) eqn:E; [inversion H; subst; exact (utc_of_aware _ _ E)|discriminate].
Qed.

Lemma utc_key_inj a b :
  dt_off a = Some 0 -> dt_off b = Some 0 -> dt_key a = dt_key b -> a = b.
Proof.
  destruct a as [wa oa], b as [wb ob]; unfold dt_key; simpl. intros -> -> H.
  f_equal. lia.
Qed.

Lemma opt_utc_inj o1 o2 x1 x2 :
  opt_res python_datetime_utc o1 = Ok x1 -> opt_res python_datetime_utc o2 = Ok x2 ->
  option_map dt_key x1 = option_map dt_key x2 -> x1 = x2.
Proof.
  destruct o1 as [v1|], o2 as [v2|]; simpl;
    try (destruct (python_datetime_utc v1) eqn:E1); try (destruct (python_datetime_utc v2) eqn:E2);
    simpl; intros H1 H2 Hk; inversion H1; inversion H2; subst; simpl in Hk;
    try discriminate; try reflexivity.
  inversion Hk. f_equal. apply utc_key_inj; eauto using python_datetime_utc_aware.
Qed.

Lemma opt_res_is_some {A B} (f : A -> res B) o x :
  opt_res f o = Ok x -> is_some o = is_some x.
Proof.
  destruct o; simpl; [destruct (f a); simpl|]; intros H; inversion H; reflexivity.
Qed.

Lemma dt_lt_same_right t a b :
  is_some (dt_off a) = true -> is_some (dt_off b) = true -> dt_key a = dt_key b ->
  dt_lt t a = dt_lt t b.
Proof.
  unfold dt_lt, comparable. destruct (dt_off a), (dt_off b); simpl; try discriminate.
  intros _ _ ->. reflexivity.
Qed.

Lemma dt_lt_same_left t a b :
  is_some (dt_off a) = true -> is_some (dt_off b) = true -> dt_key a = dt_key b ->
  dt_lt a t = dt_lt b t.
Proof.
  unfold dt_lt, comparable. destruct (dt_off a), (dt_off b); simpl; try discriminate.
  intros _ _ ->. reflexivity.
Qed.

Lemma mem_keep_same s x1 x2 y1 y2 ids dp :
  same_aware_instant x1 x2 = true -> same_aware_instant y1 y2 = true ->
  Memory.keep s x1 y1 ids dp = Memory.keep s x2 y2 ids dp.
Proof.
  intros Hx Hy. unfold Memory.keep.
  assert (Hb1 : match x1 with
                | None => Ok false
                | Some st => v <- dict_index dp (Memory.timestamp_field_name s) ;;
                             t <- dateutil_parse v ;; dt_lt t st
                end =
                match x2 with
                | None => Ok false
                | Some st => v <- dict_index dp (Memory.timestamp_field_name s) ;;
                             t <- dateutil_parse v ;; dt_lt t st
                end).
  { destruct x1 as [a|], x2 as [b|]; simpl in Hx; try discriminate; [|reflexivity].
    apply andb_true_iff in Hx as [Hx Hk]. apply andb_true_iff in Hx as [Ha Hb].
    apply Z.eqb_eq in Hk.
    destruct (dict_index dp _) as [v|e]; simpl; [|reflexivity].
    destruct (dateutil_parse v) as [t|e]; simpl; [|reflexivity].
    now apply dt_lt_same_right. }
  assert (Hb2 : match y1 with
                | None => Ok false
                | Some en => v <- dict_index dp (Memory.timestamp_field_name s) ;;
                             t <- dateutil_parse v ;; dt_lt en t
                end =
                match y2 with
                | None => Ok false
                | Some en => v <- dict_index dp (Memory.timestamp_field_name s) ;;
                             t <- dateutil_parse v ;; dt_lt en t
                end).
  { destruct y1 as [a|], y2 as [b|]; simpl in Hy; try discriminate; [|reflexivity].
    apply andb_true_iff in Hy as [Hy Hk]. apply andb_true_iff in Hy as [Ha Hb].
    apply Z.eqb_eq in Hk.
    destruct (dict_index dp _) as [v|e]; simpl; [|reflexivity].
    destruct (dateutil_parse v) as [t|e]; simpl; [|reflexivity].
    now apply dt_lt_same_left. }
  rewrite Hb1, Hb2. reflexivity.
Qed.

Lemma mem_fetch_loop_same s x1 x2 y1 y2 ids fields l :
  same_aware_instant x1 x2 = true -> same_aware_instant y1 y2 = true ->
  Memory.fetch_loop s x1 y1 ids fields l = Memory.fetch_loop s x2 y2 ids fields l.
Proof.
  intros Hx Hy. induction l as [|dp l IH]; simpl; [reflexivity|].
  rewrite (mem_keep_same s x1 x2 y1 y2 ids dp Hx Hy), IH. reflexivity.
Qed.

Lemma same_aware_is_some x y : same_aware_instant x y = true -> is_some x = is_some y.
Proof. destruct x, y; simpl; congruence. Qed.

Lemma select_by_key key ts oid sdt edt ids r :
  (forall t, ts r = Some t -> dt_key t = key t) ->
  (forall st, sdt = Some st -> dt_key st = key st) ->
  (forall en, edt = Some en -> dt_key en = key en) ->
  spec_select ts oid sdt edt ids r = select_by key ts oid sdt edt ids r.
Proof.
  intros Ht Hs He. unfold spec_select, select_by.
  destruct (ts r) as [t|]; [rewrite (Ht t eq_refl)|];
  (destruct sdt as [st|]; [try rewrite (Hs st eq_refl)|]);
  (destruct edt as [en|]; [try rewrite (He en eq_refl)|]); reflexivity.
Qed.

Lemma bounds_ok_kind t sdt edt :
  (dt_off t = None /\ naive_opt sdt && naive_opt edt = true)
  \/ (is_some (dt_off t) = true /\ aware_opt sdt && aware_opt edt = true) ->
  bounds_ok t sdt edt = true.
Proof.
  unfold bounds_ok, comparable, naive_opt, aware_opt.
  destruct sdt as [st|], edt as [en|]; destruct (dt_off t);
    try destruct (dt_off st); try destruct (dt_off en); simpl;
    intros [[H1 H2]|[H1 H2]]; congruence.
Qed.

Lemma dt_key_naive d : dt_off d = None -> dt_key d = dt_wall d.
Proof. unfold dt_key. now intros ->. Qed.

Lemma dt_key_utc_seconds d : dt_key d = utc_seconds d.
Proof. unfold dt_key, utc_seconds. destruct (dt_off d); lia. Qed.

Lemma naive_opt_key x d : naive_opt x = true -> x = Some d -> dt_key d = dt_wall d.
Proof.
  intros H ->. simpl in H. apply dt_key_naive. destruct (dt_off d); [discriminate|reflexivity].
Qed.

End TimezoneFacts.

(** * Further properties of the code *)

(** ** The proleptic Gregorian calendar

    [civil_from_days] and [days_from_civil] are inverse on every day: the
    check runs over one 400-year era of 146097 days and carries over to all
    of [Z] because both functions shift by 400 years per era. *)

Lemma all_from_spec f n z :
  all_from f n z = true -> forall x, z <= x < z + Z.of_nat n -> f x = true.
Proof.
  revert z. induction n as [|n IH]; intros z H x Hx; simpl in *; [lia|].
  apply andb_true_iff in H as [H1 H2].
  destruct (Z.eq_dec x z) as [->|Hne]; [exact H1|].
  apply (IH (z + 1)); [exact H2|lia].
Qed.

Lemma civil_era_checked :
  all_from (fun i => all_from civil_ok 773 (i * 773)) 189 0 = true.
Proof. vm_compute. reflexivity. Qed.

Lemma civil_ok_era z : 0 <= z < 146097 -> civil_ok z = true.
Proof.
  intros Hz.
  assert (Hi : (fun i => all_from civil_ok 773 (i * 773)) (z / 773) = true).
  { apply (all_from_spec _ 189 0 civil_era_checked). simpl. split.
    - apply Z.div_pos; lia.
    - apply Z.div_lt_upper_bound; lia. }
  cbv beta in Hi. apply (all_from_spec _ _ _ Hi).
  pose proof (Z.mul_div_le z 773). pose proof (Z.mod_pos_bound z 773).
  pose proof (Z.div_mod z 773). change (Z.of_nat 773) with 773. lia.
Qed.

Lemma civil_from_days_period z :
  civil_from_days (z + 146097) =
  let '(y, m, d) := civil_from_days z in (y + 400, m, d).
Proof.
  unfold civil_from_days.
  replace (z + 146097 + 719468) with ((z + 719468) + 1 * 146097) by ring.
  rewrite Z_div_plus_full by lia.
  replace (z + 719468 + 1 * 146097 - ((z + 719468) / 146097 + 1) * 146097)
    with (z + 719468 - (z + 719468) / 146097 * 146097) by ring.
  cbv zeta.
  set (doe := z + 719468 - (z + 719468) / 146097 * 146097).
  set (e := (z + 719468) / 146097).
  match goal with |- context [if ?c <=? 2 then _ else _] => destruct (c <=? 2) end;
    f_equal; f_equal; ring.
Qed.

Lemma days_from_civil_period y m d :
  days_from_civil (y + 400) m d = days_from_civil y m d + 146097.
Proof.
  unfold days_from_civil. cbv zeta.
  destruct (m <=? 2).
  - replace (y + 400 - 1) with ((y - 1) + 1 * 400) by ring.
    rewrite Z_div_plus_full by lia.
    replace (y - 1 + 1 * 400 - ((y - 1) / 400 + 1) * 400)
      with (y - 1 - (y - 1) / 400 * 400) by ring. ring.
  - replace (y + 400) with (y + 1 * 400) by ring.
    rewrite Z_div_plus_full by lia.
    replace (y + 1 * 400 - (y / 400 + 1) * 400) with (y - y / 400 * 400) by ring. ring.
Qed.

Lemma leap_period y : leap (y + 400) = leap y.
Proof.
  unfold leap.
  replace (y + 400) with (y + 100 * 4) by ring. rewrite Z_mod_plus_full.
  replace (y + 100 * 4) with (y + 4 * 100) by ring. rewrite Z_mod_plus_full.
  replace (y + 4 * 100) with (y + 1 * 400) by ring. rewrite Z_mod_plus_full.
  reflexivity.
Qed.

Lemma civil_ok_period z : civil_ok (z + 146097) = civil_ok z.
Proof.
  unfold civil_ok. rewrite civil_from_days_period.
  destruct (civil_from_days z) as [[y m] d].
  rewrite days_from_civil_period. unfold days_in_month. rewrite leap_period.
  replace (days_from_civil y m d + 146097 =? z + 146097) with (days_from_civil y m d =? z).
  - reflexivity.
  - destruct (Z.eqb_spec (days_from_civil y m d) z), (Z.eqb_spec (days_from_civil y m d + 146097) (z + 146097)); lia.
Qed.

Lemma civil_ok_all z : civil_ok z = true.
Proof.
  rewrite (Z.div_mod z 146097) by lia.
  pose proof (Z.mod_pos_bound z 146097).
  generalize (z / 146097). intros k.
  replace (146097 * k + z mod 146097) with (z mod 146097 + k * 146097) by ring.
  induction k using Z.peano_ind.
  - rewrite Z.mul_0_l, Z.add_0_r. apply civil_ok_era. lia.
  - rewrite Z.mul_succ_l, Z.add_assoc, civil_ok_period. exact IHk.
  - rewrite <- civil_ok_period. rewrite Z.mul_pred_l.
    replace (z mod 146097 + (k * 146097 - 146097) + 146097) with (z mod 146097 + k * 146097) by ring.
    exact IHk.
Qed.

(** ** Printing and reading back ISO-8601 text *)

Lemma digit_digit_char n : 0 <= n < 10 -> digit (digit_char n) = Some n.
Proof.
  intros Hn. unfold digit, digit_char.
  rewrite Ascii.nat_ascii_embedding by lia.
  destruct (Nat.leb_spec 48 (Z.to_nat (48 + n))); [|lia].
  destruct (Nat.leb_spec (Z.to_nat (48 + n)) 57); [|lia].
  cbv [andb]. f_equal. lia.
Qed.

Lemma digits2 n : 0 <= n < 100 ->
  digits_val 0 [digit_char (n / 10); digit_char (n mod 10)] = Some n.
Proof.
  intros Hn. cbn [digits_val].
  rewrite !digit_digit_char.
  - f_equal. pose proof (Z.div_mod n 10). lia.
  - apply Z.mod_pos_bound. lia.
  - split; [apply Z.div_pos; lia | apply Z.div_lt_upper_bound; lia].
Qed.

Lemma digits4 n : 0 <= n < 10000 ->
  digits_val 0 [digit_char (n / 100 / 10); digit_char (n / 100 mod 10);
                digit_char (n mod 100 / 10); digit_char (n mod 100 mod 10)] = Some n.
Proof.
  intros Hn. cbn [digits_val].
  assert (0 <= n / 100 < 100) by (split; [apply Z.div_pos; lia | apply Z.div_lt_upper_bound; lia]).
  assert (0 <= n mod 100 < 100) by (apply Z.mod_pos_bound; lia).
  rewrite !digit_digit_char.
  - f_equal. pose proof (Z.div_mod n 100). pose proof (Z.div_mod (n / 100) 10).
    pose proof (Z.div_mod (n mod 100) 10). lia.
  - apply Z.mod_pos_bound. lia.
  - split; [apply Z.div_pos; lia | apply Z.div_lt_upper_bound; lia].
  - apply Z.mod_pos_bound. lia.
  - split; [apply Z.div_pos; lia | apply Z.div_lt_upper_bound; lia].
Qed.

Lemma days_in_month_le y m : days_in_month y m <= 31.
Proof.
  unfold days_in_month. destruct (m =? 2); [destruct (leap y); lia|].
  destruct (_ || _); lia.
Qed.

Ltac bool_true := match goal with
  | |- context [?a <=? ?b] => rewrite (proj2 (Z.leb_le a b)) by lia
  | |- context [?a <? ?b] => rewrite (proj2 (Z.ltb_lt a b)) by lia
  end.

Lemma parse_isoformat d :
  1 <= dt_year d <= 9999 ->
  (dt_off d = None \/ exists o, dt_off d = Some o /\ -86400 < o < 86400 /\ o mod 60 = 0) ->
  parse_iso (isoformat d) = Some d.
Proof.
  destruct d as [w off]. unfold dt_year, isoformat, isoformat_sep. simpl dt_wall. simpl dt_off.
  pose proof (civil_ok_all (w / 86400)) as Hc. unfold civil_ok in Hc.
  destruct (civil_from_days (w / 86400)) as [[y mo] dd] eqn:Ec.
  intros Hy Hoff.
  repeat rewrite andb_true_iff in Hc. destruct Hc as [[[[Hd Hm1] Hm2] Hd1] Hd2].
  apply Z.eqb_eq in Hd. apply Z.leb_le in Hm1, Hm2, Hd1, Hd2.
  pose proof (Z.mod_pos_bound w 86400 ltac:(lia)).
  set (secs := w mod 86400) in *.
  assert (0 <= secs / 3600 < 24) by (split; [apply Z.div_pos; lia | apply Z.div_lt_upper_bound; lia]).
  assert (0 <= secs mod 3600 < 3600) by (apply Z.mod_pos_bound; lia).
  assert (0 <= secs mod 3600 / 60 < 60) by (split; [apply Z.div_pos; lia | apply Z.div_lt_upper_bound; lia]).
  assert (0 <= secs mod 60 < 60) by (apply Z.mod_pos_bound; lia).
  unfold parse_iso.
  destruct Hoff as [-> | (o & -> & Ho & Hom)].
  - cbn [pad4 pad2 String.append list_ascii_of_string].
    cbv iota beta.
    pose proof (days_in_month_le y mo).
    rewrite digits4 by lia. rewrite !digits2 by lia.
    cbn [parse_offset].
    repeat bool_true. cbv [is_char]. simpl.
    pose proof (Z.div_mod w 86400). pose proof (Z.div_mod secs 3600).
    pose proof (Z.div_mod (secs mod 3600) 60). pose proof (Z.div_mod secs 60).
    assert (E60 : (secs mod 3600) mod 60 = secs mod 60)
      by (apply Z.mod_mod_divide; exists 60; reflexivity).
    f_equal. f_equal. rewrite Hd. lia.
  - cbn [pad4 pad2 String.append list_ascii_of_string].
    pose proof (Z.abs_nonneg o).
    assert (Ha : Z.abs o < 86400) by lia.
    assert (0 <= Z.abs o / 3600 < 24) by (split; [apply Z.div_pos; lia | apply Z.div_lt_upper_bound; lia]).
    assert (0 <= Z.abs o mod 3600 < 3600) by (apply Z.mod_pos_bound; lia).
    assert (0 <= Z.abs o mod 3600 / 60 < 60) by (split; [apply Z.div_pos; lia | apply Z.div_lt_upper_bound; lia]).
    assert (Habs : Z.abs o = Z.abs o / 3600 * 3600 + Z.abs o mod 3600 / 60 * 60).
    { assert (Z.abs o mod 60 = 0).
      { destruct (Z.abs_spec o) as [[_ ->]|[_ ->]]; [exact Hom|].
        apply Z.mod_opp_l_z; [lia|exact Hom]. }
      assert ((Z.abs o mod 3600) mod 60 = Z.abs o mod 60)
        by (apply Z.mod_mod_divide; exists 60; reflexivity).
      pose proof (Z.div_mod (Z.abs o) 3600). pose proof (Z.div_mod (Z.abs o mod 3600) 60).
      lia. }
    pose proof (days_in_month_le y mo).
    assert (E60 : (secs mod 3600) mod 60 = secs mod 60)
      by (apply Z.mod_mod_divide; exists 60; reflexivity).
    pose proof (Z.div_mod w 86400). pose proof (Z.div_mod secs 3600).
    pose proof (Z.div_mod (secs mod 3600) 60).
    destruct (o <? 0) eqn:Hneg;
      cbn [pad2 String.append list_ascii_of_string]; cbv iota beta;
      rewrite digits4 by lia; rewrite !digits2 by lia;
      cbn [parse_offset]; rewrite !digits2 by lia;
      repeat bool_true; cbv [is_char]; simpl.
    + apply Z.ltb_lt in Hneg. rewrite Z.abs_neq in Habs by lia.
      f_equal. f_equal; [rewrite Hd; lia | f_equal; rewrite Z.abs_neq by lia; lia].
    + apply Z.ltb_ge in Hneg. rewrite Z.abs_eq in Habs by lia.
      f_equal. f_equal; [rewrite Hd; lia | f_equal; rewrite Z.abs_eq by lia; lia].
Qed.

(** Extra X16 ([_python_datetime_utc], [datetime.isoformat] read by
    [dateutil.parser.parse]): the ISO text of a datetime with whole
    seconds (no microseconds) of year 1..9999, naive or with an offset in whole minutes of less than one day, parses
    back to the same datetime. *)
Theorem isoformat_read_back d :
  1 <= dt_year d <= 9999 ->
  (dt_off d = None \/ exists o, dt_off d = Some o /\ -86400 < o < 86400 /\ o mod 60 = 0) ->
  dateutil_parse (PStr (isoformat d)) = Ok d.
Proof.
  intros Hy Ho. unfold dateutil_parse. rewrite (parse_isoformat d Hy Ho). reflexivity.
Qed.

(** ** The in-memory store *)

Lemma write_loop_valid s l :
  Memory.write_loop s l = (Memory.MemDB (Memory.timestamp_field_name s)
                            (Memory.object_id_field_name s) (Memory.data s ++ l), None)
  <-> forallb (mem_valid s) l = true.
Proof.
  destruct s as [tsf oidf dat]. simpl. revert dat.
  induction l as [|x l IH]; intros dat; simpl.
  - rewrite app_nil_r. split; reflexivity.
  - unfold mem_valid at 1. simpl.
    destruct (Memory.field_missing tsf x) eqn:E1; simpl.
    + split; [intros H; inversion H|discriminate].
    + destruct (Memory.field_missing oidf x) eqn:E2; simpl.
      * split; [intros H; inversion H|discriminate].
      * unfold Memory.append. simpl.
        replace (dat ++ x :: l) with ((dat ++ [x]) ++ l) by (rewrite <- app_assoc; reflexivity).
        exact (IH (dat ++ [x])).
Qed.

(** Extra X1 ([DatabaseConnectionMemory.write_data]): writing a list of
    datapoints appends the whole list and raises nothing exactly when every
    datapoint carries the designated timestamp and object id fields. *)
Theorem mem_write_data_all_valid s l :
  Memory.write_data s (Memory.Many l)
  = (Memory.MemDB (Memory.timestamp_field_name s) (Memory.object_id_field_name s)
                  (Memory.data s ++ l), None)
  <-> forallb (mem_valid s) l = true.
Proof. apply write_loop_valid. Qed.

Lemma write_loop_grows s l :
  let s' := fst (Memory.write_loop s l) in
  Memory.timestamp_field_name s' = Memory.timestamp_field_name s /\
  Memory.object_id_field_name s' = Memory.object_id_field_name s /\
  exists added, Memory.data s' = Memory.data s ++ added /\ forallb (mem_valid s) added = true.
Proof.
  destruct s as [tsf oidf dat]. simpl. revert dat.
  induction l as [|x l IH]; intros dat; simpl.
  - split; [reflexivity|split; [reflexivity|]]. exists []. rewrite app_nil_r. auto.
  - destruct (Memory.field_missing tsf x) eqn:E1; simpl.
    + split; [reflexivity|split; [reflexivity|]]. exists []. rewrite app_nil_r. auto.
    + destruct (Memory.field_missing oidf x) eqn:E2; simpl.
      * split; [reflexivity|split; [reflexivity|]]. exists []. rewrite app_nil_r. auto.
      * change (Memory.append (Memory.MemDB tsf oidf dat) x)
          with (Memory.MemDB tsf oidf (dat ++ [x])).
        destruct (IH (dat ++ [x])) as (H1 & H2 & added & H3 & H4).
        split; [exact H1|split; [exact H2|]].
        exists (x :: added). rewrite H3, <- app_assoc. split; [reflexivity|].
        simpl. unfold mem_valid at 1. simpl. rewrite E1, E2. exact H4.
Qed.

(** Extra X2 ([DatabaseConnectionMemory.write_data]): whatever is written,
    and even when it raises, the field names are unchanged and the store
    only grows by datapoints that carry the designated fields. *)
Theorem mem_write_data_keeps_store_valid s a :
  let s' := fst (Memory.write_data s a) in
  Memory.timestamp_field_name s' = Memory.timestamp_field_name s /\
  Memory.object_id_field_name s' = Memory.object_id_field_name s /\
  exists added, Memory.data s' = Memory.data s ++ added /\ forallb (mem_valid s) added = true.
Proof. destruct a; apply write_loop_grows. Qed.

(** Extra X3 ([DatabaseConnectionMemory.fetch_data]): with no filter and no
    field selection the fetch returns the stored datapoints, in order. *)
Theorem mem_fetch_unfiltered s : Memory.fetch_data s None None None None = Ok (Memory.data s).
Proof.
  unfold Memory.fetch_data. simpl. induction (Memory.data s) as [|x l IH]; simpl; [reflexivity|].
  rewrite IH. reflexivity.
Qed.

Lemma fetch_loop_project s sdt edt ids fs l :
  Memory.fetch_loop s sdt edt ids (Some fs) l =
  (r <- Memory.fetch_loop s sdt edt ids None l ;; Ok (map (Memory.project (Some fs)) r)).
Proof.
  induction l as [|x l IH]; simpl; [reflexivity|].
  destruct (Memory.keep s sdt edt ids x) as [k|e]; simpl; [|reflexivity].
  rewrite IH. destruct (Memory.fetch_loop s sdt edt ids None l); simpl; [|reflexivity].
  destruct k; reflexivity.
Qed.

(** Extra X4 ([DatabaseConnectionMemory.fetch_data]): selecting fields
    fails exactly when fetching without a selection fails, and otherwise
    returns that result with every datapoint restricted to the fields. *)
Theorem mem_fetch_fields_is_projection s st en ids fs :
  Memory.fetch_data s st en ids (Some fs) =
  (r <- Memory.fetch_data s st en ids None ;; Ok (map (Memory.project (Some fs)) r)).
Proof.
  unfold Memory.fetch_data.
  destruct (_ && _); [reflexivity|]. destruct (_ && _); [reflexivity|].
  destruct (opt_res dateutil_parse st); [|reflexivity]. simpl.
  destruct (opt_res dateutil_parse en); [|reflexivity]. simpl.
  apply fetch_loop_project.
Qed.

Lemma fetch_loop_filter s sdt edt ids fields l r :
  Memory.fetch_loop s sdt edt ids fields l = Ok r ->
  r = map (Memory.project fields)
          (filter (fun dp => match Memory.keep s sdt edt ids dp with Ok b => b | Err _ => false end) l).
Proof.
  revert r. induction l as [|x l IH]; intros r H; simpl in H.
  - inversion H. reflexivity.
  - destruct (Memory.keep s sdt edt ids x) as [k|e] eqn:Ek; simpl in H; [|discriminate].
    destruct (Memory.fetch_loop s sdt edt ids fields l) as [tl|e] eqn:El; simpl in H; [|discriminate].
    inversion H; subst. simpl. rewrite Ek. destruct k; simpl; f_equal; apply IH; reflexivity.
Qed.

(** Extra X5 ([DatabaseConnectionMemory.fetch_data]): a successful fetch
    returns a subsequence of the stored datapoints, in store order, each one
    restricted to the requested fields. *)
Theorem mem_fetch_selects_stored s st en ids fields r :
  Memory.fetch_data s st en ids fields = Ok r ->
  exists sel : dict -> bool, r = map (Memory.project fields) (filter sel (Memory.data s)).
Proof.
  unfold Memory.fetch_data. destruct (_ && _); [discriminate|]. destruct (_ && _); [discriminate|].
  destruct (opt_res dateutil_parse st); [|discriminate]. simpl.
  destruct (opt_res dateutil_parse en); [|discriminate]. simpl.
  intros H. eexists. apply (fetch_loop_filter _ _ _ _ _ _ _ H).
Qed.

(** Extra X6 ([DatabaseConnectionMemory.fetch_data]): on a store with an
    object id field whose datapoints all carry the designated fields,
    fetching with an empty list of object ids returns no datapoint. *)
Theorem mem_fetch_empty_ids s fields :
  Memory.object_id_field_name s <> None ->
  forallb (mem_valid s) (Memory.data s) = true ->
  Memory.fetch_data s None None (Some []) fields = Ok [].
Proof.
  intros Ho Hv. unfold Memory.fetch_data. simpl.
  destruct (Memory.object_id_field_name s) as [k|] eqn:Ek; [|contradiction]. simpl.
  induction (Memory.data s) as [|x l IH]; simpl; [reflexivity|].
  simpl in Hv. apply andb_true_iff in Hv as [Hx Hl].
  unfold Memory.keep. simpl. unfold mem_valid in Hx. rewrite Ek in Hx. simpl in Hx.
  apply andb_true_iff in Hx as [_ Hx]. apply negb_true_iff in Hx.
  apply negb_false_iff in Hx. rewrite Ek. simpl.
  assert (exists v, dget x k = Some v) as [v Hv'].
  { clear -Hx. induction x as [|[k' v'] r IH]; simpl in *; [discriminate|].
    destruct (String.eqb_spec k' k) as [->|]; [eauto|]. apply IH. exact Hx. }
  rewrite Hv'. simpl. rewrite IH by exact Hl. reflexivity.
Qed.

(** ** The data queue *)

Lemma dict_index_err dp tsf e : dict_index dp tsf = Err e -> e = KeyError.
Proof.
  unfold dict_index. destruct tsf; [destruct (dget dp s)|]; intros H; inversion H; reflexivity.
Qed.

Lemma map_res_key_error tsf xs dp :
  In dp xs -> dict_index dp tsf = Err KeyError ->
  map_res (fun dp => dict_index dp tsf) xs = Err KeyError.
Proof.
  induction xs as [|x xs IH]; intros Hin Hdp; [contradiction|]. simpl.
  destruct (dict_index x tsf) as [k|e] eqn:Ex; simpl.
  - destruct Hin as [->|Hin]; [congruence|]. rewrite IH by assumption. reflexivity.
  - apply dict_index_err in Ex. subst. reflexivity.
Qed.

(** Extra X7 ([DataQueue.__init__]): if one datapoint lacks the timestamp
    field, building the queue raises [KeyError]. *)
Theorem queue_init_missing_key h l tsf dp :
  In dp (h l) -> dict_index dp tsf = Err KeyError -> Queue.init h l tsf = Err KeyError.
Proof.
  intros Hin Hdp. unfold Queue.init, Queue.sort_by_key.
  rewrite (map_res_key_error _ _ _ Hin Hdp). reflexivity.
Qed.



Lemma insert_key_str kx l :
  str_key kx -> Forall str_key l -> exists l', Queue.insert_key kx l = Ok l'.
Proof.
  intros [t Ht]. induction l as [|ky r IH]; intros Hl; simpl; [eauto|].
  inversion Hl as [|? ? [u Hu] Hr]; subst. rewrite Ht, Hu. simpl.
  destruct (str_ltb u t); simpl; [|eauto].
  destruct (IH Hr) as [r' Hr']. rewrite Hr'. simpl. eauto.
Qed.

Lemma isort_str l : Forall str_key l -> exists l', Queue.isort l = Ok l'.
Proof.
  induction l as [|kx r IH]; intros Hl; simpl; [eauto|].
  inversion Hl; subst. destruct (IH H2) as [r' Hr']. rewrite Hr'. simpl.
  apply insert_key_str; [assumption|].
  apply (Permutation_Forall (isort_perm _ _ Hr')). assumption.
Qed.

(** Extra X8 ([DataQueue.__init__]): when every datapoint holds a string
    under the timestamp field, building the queue raises nothing. *)
Theorem queue_init_text_keys h l tsf :
  (forall dp, In dp (h l) -> exists t, dict_index dp tsf = Ok (PStr t)) ->
  exists h' q, Queue.init h l tsf = Ok (h', q).
Proof.
  intros Hk. unfold Queue.init, Queue.sort_by_key.
  assert (exists ks, map_res (fun dp => dict_index dp tsf) (h l) = Ok ks /\
                     Forall (fun k => exists t, k = PStr t) ks) as (ks & Hks & Hf).
  { induction (h l) as [|x xs IH]; simpl; [eauto|].
    destruct (Hk x (or_introl eq_refl)) as [t Ht]. rewrite Ht. simpl.
    destruct IH as (ks & E & F); [intros; apply Hk; right; assumption|].
    rewrite E. simpl. eauto. }
  rewrite Hks. simpl.
  destruct (isort_str (combine ks (h l))) as [ps Hps].
  { clear Hks Hk. revert ks Hf. induction (h l) as [|x xs IH]; intros [|k ks] Hf; simpl; constructor.
    - inversion Hf; subst. simpl. assumption.
    - apply IH. inversion Hf; assumption. }
  rewrite Hps. simpl. eauto.
Qed.

Lemma isort_sorted_id l : Sorted key_rel l -> Queue.isort l = Ok l.
Proof.
  induction l as [|kx r IH]; intros Hs; simpl; [reflexivity|].
  inversion Hs as [|? ? Hr Hd]; subst. rewrite IH by exact Hr. simpl.
  destruct r as [|ky r]; [reflexivity|]. simpl.
  inversion Hd; subst. unfold key_rel in H0. rewrite H0. reflexivity.
Qed.

(** Extra X9 ([DataQueue.__init__]): a list already sorted by its
    timestamp keys is left as it is, and the queue counts its datapoints
    and points at the first one. *)
Theorem queue_init_sorted_unchanged h l tsf :
  (forall dp, In dp (h l) -> exists k, dict_index dp tsf = Ok k) ->
  Sorted (key_le tsf) (h l) ->
  exists h', Queue.init h l tsf = Ok (h', Queue.DQ l tsf (length (h l)) 0) /\
             forall l', h' l' = h l'.
Proof.
  intros Hk Hs. unfold Queue.init, Queue.sort_by_key.
  set (xs := h l) in *.
  assert (exists ks, map_res (fun dp => dict_index dp tsf) xs = Ok ks /\
           Sorted key_rel (combine ks xs)) as (ks & Hks & Hsk).
  { clearbody xs. induction xs as [|x xs IH]; simpl; [exists []; split; [reflexivity|constructor]|].
    destruct (Hk x (or_introl eq_refl)) as [k Hx]. rewrite Hx. simpl.
    inversion Hs as [|? ? Hs' Hd]; subst.
    destruct IH as (ks & E & S); [intros; apply Hk; right; assumption|assumption|].
    rewrite E. simpl. exists (k :: ks). split; [reflexivity|].
    constructor; [exact S|].
    destruct xs as [|y ys]; [destruct ks; constructor|].
    inversion Hd as [|? ? Hxy]; subst. destruct Hxy as (ka & kb & Ha & Hb & Hlt).
    apply map_res_Forall2 in E. inversion E as [|? kb' ? ? Hy]; subst. simpl.
    constructor. unfold key_rel. simpl. congruence. }
  rewrite Hks. simpl. rewrite isort_sorted_id by exact Hsk. simpl.
  apply map_res_Forall2, Forall2_length in Hks.
  rewrite map_snd_combine by auto.
  exists (Queue.hupd h l xs). split; [reflexivity|].
  intros l'. unfold Queue.hupd. destruct (Nat.eqb_spec l' l) as [->|]; reflexivity.
Qed.

Lemma py_lt_irrefl a : py_lt a a <> Ok true.
Proof.
  destruct a; simpl; try discriminate.
  - rewrite Z.ltb_irrefl. discriminate.
  - unfold str_ltb. pose proof (String.compare_antisym s s) as Ha.
    destruct (String.compare s s); simpl in Ha; discriminate.
  - unfold dt_lt. destruct (comparable d d); [|discriminate]. rewrite Z.ltb_irrefl. discriminate.
Qed.



Lemma str_ltb_tie a b : str_ltb a b = false -> str_ltb b a = false -> a = b.
Proof.
  unfold str_ltb. intros H1 H2. rewrite String.compare_antisym in H2.
  destruct (String.compare a b) eqn:E; simpl in H1, H2; try discriminate.
  apply String.compare_eq_iff. exact E.
Qed.

(** Two keys tying with a third are not less than one another. *)
Lemma tie_no_lt a b k : key_tie a k = true -> key_tie b k = true -> py_lt a b = Ok false.
Proof.
  unfold key_tie. destruct a as [|x|x|x], k as [|z|z|z]; simpl; try discriminate;
    destruct b as [|y|y|y]; simpl; try discriminate.
  - destruct (x <? z) eqn:E1, (z <? x) eqn:E2, (y <? z) eqn:E3, (z <? y) eqn:E4;
      try discriminate. intros _ _. rewrite Z.ltb_ge in *. f_equal. apply Z.ltb_ge. lia.
  - destruct (str_ltb x z) eqn:E1, (str_ltb z x) eqn:E2, (str_ltb y z) eqn:E3,
      (str_ltb z y) eqn:E4; try discriminate. intros _ _.
    rewrite (str_ltb_tie _ _ E1 E2), (str_ltb_tie _ _ E3 E4). f_equal.
    destruct (str_ltb z z) eqn:E; [|reflexivity]. exfalso.
    apply (py_lt_irrefl (PStr z)). simpl. rewrite E. reflexivity.
  - unfold dt_lt, comparable.
    destruct (dt_off x), (dt_off z), (dt_off y); simpl; try discriminate;
    destruct (dt_key x <? dt_key z) eqn:E1, (dt_key z <? dt_key x) eqn:E2,
      (dt_key y <? dt_key z) eqn:E3, (dt_key z <? dt_key y) eqn:E4; try discriminate;
    intros _ _; rewrite Z.ltb_ge in *; f_equal; apply Z.ltb_ge; lia.
Qed.

Lemma insert_key_filter kx l l' k :
  Queue.insert_key kx l = Ok l' ->
  filter (pkey_ties k) l'
  = if pkey_ties k kx then kx :: filter (pkey_ties k) l else filter (pkey_ties k) l.
Proof.
  revert l'. induction l as [|ky r IH]; intros l' H; simpl in H.
  - inversion H; subst. simpl. reflexivity.
  - destruct (py_lt (fst ky) (fst kx)) as [[|]|e] eqn:Elt; simpl in H; try discriminate.
    + destruct (Queue.insert_key kx r) as [r'|e] eqn:E; simpl in H; [|discriminate].
      inversion H; subst. simpl. rewrite (IH r' eq_refl).
      destruct (pkey_ties k kx) eqn:Ex; destruct (pkey_ties k ky) eqn:Ey; simpl;
        rewrite ?Ey; try reflexivity.
      exfalso. unfold pkey_ties in Ex, Ey. rewrite (tie_no_lt _ _ _ Ey Ex) in Elt. discriminate.
    + inversion H; subst. simpl. reflexivity.
Qed.

Lemma isort_filter l l' k :
  Queue.isort l = Ok l' -> filter (pkey_ties k) l' = filter (pkey_ties k) l.
Proof.
  revert l'. induction l as [|kx r IH]; intros l' H; simpl in H.
  - inversion H. reflexivity.
  - destruct (Queue.isort r) as [r'|e] eqn:E; simpl in H; [|discriminate].
    rewrite (insert_key_filter _ _ _ _ H), (IH r' eq_refl). simpl. reflexivity.
Qed.

Lemma map_snd_filter tsf k ps :
  Forall (fun p => dict_index (snd p) tsf = Ok (fst p)) ps ->
  map snd (filter (pkey_ties k) ps) = filter (key_ties tsf k) (map snd ps).
Proof.
  induction 1 as [|p ps Hp Hps IH]; simpl; [reflexivity|].
  unfold key_ties at 1. rewrite Hp. unfold pkey_ties at 1.
  destruct (key_tie (fst p) k); simpl; rewrite IH; reflexivity.
Qed.

(** Extra X10 ([DataQueue.__init__]): [list.sort] is stable: the
    datapoints whose keys tie with a key [k] (neither compares less than
    the other) keep their relative order. *)
Theorem queue_init_stable h l tsf h' q k :
  Queue.init h l tsf = Ok (h', q) ->
  filter (key_ties tsf k) (h' l) = filter (key_ties tsf k) (h l).
Proof.
  intros H. destruct (queue_init_inv _ _ _ _ _ H) as (ys & Hs & -> & _).
  unfold Queue.hupd. rewrite Nat.eqb_refl.
  unfold Queue.sort_by_key in Hs.
  destruct (map_res _ (h l)) as [ks|e] eqn:Ek; simpl in Hs; [|discriminate].
  destruct (Queue.isort (combine ks (h l))) as [ps|e] eqn:Ep; simpl in Hs; [|discriminate].
  inversion Hs; subst.
  pose proof (map_res_Forall2 _ _ _ Ek) as F2.
  pose proof (Forall2_combine_keys _ _ _ F2) as Fc.
  rewrite <- (map_snd_filter tsf k ps).
  - rewrite (isort_filter _ _ _ Ep), (map_snd_filter tsf k _ Fc).
    rewrite map_snd_combine; [reflexivity|]. apply Forall2_length in F2. auto.
  - apply (Permutation_Forall (isort_perm _ _ Ep)). exact Fc.
Qed.

(** ** The CSV store *)

Lemma row_eqb_refl r : CSV.row_eqb r r = true.
Proof. induction r; simpl; [reflexivity|]. rewrite String.eqb_refl. exact IHr. Qed.

(** Extra X11 ([DatabaseConnectionCSV.__init__]): opening the file that a
    successful construction left behind, with the same arguments, succeeds,
    leaves the file system as it is and gives the same connection. *)
Theorem csv_init_reopen fs p tsdb objdb dfn to_str from_str fs1 s :
  CSV.init fs p tsdb objdb dfn to_str from_str = Ok (fs1, s) ->
  CSV.init fs1 p tsdb objdb dfn to_str from_str = Ok (fs1, s).
Proof.
  unfold CSV.init.
  destruct (negb tsdb && negb objdb); [discriminate|].
  destruct (CSV.reserved_in "timestamp" dfn); [discriminate|].
  destruct (CSV.reserved_in "object_id" dfn); [discriminate|].
  destruct (fs p) as [rows|] eqn:Ep.
  - destruct (CSV.header rows) as [hd|] eqn:Eh; [|discriminate].
    destruct (CSV.row_eqb hd _) eqn:Eq; intros H; inversion H; subst.
    rewrite Ep, Eh, Eq. reflexivity.
  - intros H. inversion H; subst. unfold CSV.fs_set. rewrite String.eqb_refl.
    simpl. rewrite row_eqb_refl. reflexivity.
Qed.

(** Extra X12 ([DatabaseConnectionCSV._write_data_object_time_series]): a
    successful write appends exactly one row, as long as the field names,
    to the database file (created empty when missing) and touches no other
    file. *)
Theorem csv_write_appends_one_row fs s ts oid data fs' :
  CSV.write_data_object_time_series fs s ts oid data = Ok fs' ->
  (exists r, length r = length (CSV.field_names s) /\
     fs' (CSV.path s) = Some (match fs (CSV.path s) with Some rows => rows | None => [] end ++ [r]))
  /\ forall q, q <> CSV.path s -> fs' q = fs q.
Proof.
  unfold CSV.write_data_object_time_series.
  destruct (negb _); [discriminate|].
  destruct (python_datetime_utc ts) as [t|e]; simpl; [|discriminate].
  destruct (map_res _ (CSV.field_names s)) as [r|e] eqn:Er; simpl; [|discriminate].
  intros H. inversion H; subst. split.
  - exists r. split.
    + apply map_res_Forall2, Forall2_length in Er. auto.
    + unfold CSV.fs_append, CSV.fs_set. rewrite String.eqb_refl.
      destruct (fs (CSV.path s)); reflexivity.
  - intros q Hq. unfold CSV.fs_append, CSV.fs_set.
    destruct (String.eqb_spec q (CSV.path s)); [contradiction|reflexivity].
Qed.

Lemma has_key_in d k : has_key d k = true <-> In k (map fst d).
Proof.
  unfold has_key. rewrite existsb_exists. split.
  - intros ([k' v] & Hin & Hk). apply String.eqb_eq in Hk. simpl in Hk. subst.
    apply (in_map fst _ _ Hin).
  - intros Hin. apply in_map_iff in Hin as ([k' v] & Hk & Hin). simpl in Hk. subst.
    exists (k, v). split; [exact Hin|]. apply String.eqb_refl.
Qed.

Lemma dset_keys d k v :
  map fst (dset d k v) = if has_key d k then map fst d else map fst d ++ [k].
Proof.
  induction d as [|[k' v'] d IH]; [reflexivity|].
  cbn [dset map fst]. unfold has_key in *. cbn [existsb fst].
  destruct (String.eqb k' k); simpl; [reflexivity|]. rewrite IH.
  destruct (existsb _ d); reflexivity.
Qed.

Lemma dset_keys_nodup d k v : NoDup (map fst d) -> NoDup (map fst (dset d k v)).
Proof.
  intros H. rewrite dset_keys. destruct (has_key d k) eqn:E; [exact H|].
  apply (Permutation_NoDup (Permutation_cons_append (map fst d) k)).
  constructor; [|exact H]. intros Hin. apply has_key_in in Hin. congruence.
Qed.

Lemma dset_keys_in d k v k' : In k' (map fst (dset d k v)) <-> In k' (map fst d) \/ k' = k.
Proof.
  rewrite dset_keys. destruct (has_key d k) eqn:E.
  - apply has_key_in in E. split; [auto|]. intros [H|H]; [exact H|subst; exact E].
  - rewrite in_app_iff. simpl. split; intros [H|H]; auto.
    + destruct H as [H|[]]. auto.
Qed.

(** [d.update(kvs)] on a dict [d]: the keys stay distinct and are those of
    [d] and of [kvs]; fresh distinct keys are appended in order. *)
Lemma dupdate_keys acc kvs :
  NoDup (map fst acc) ->
  NoDup (map fst (dupdate acc kvs)) /\
  (forall k, In k (map fst (dupdate acc kvs)) <-> In k (map fst acc) \/ In k (map fst kvs)).
Proof.
  unfold dupdate. revert acc. induction kvs as [|[k v] kvs IH]; intros acc Hacc; simpl.
  - split; [exact Hacc|]. intros k. tauto.
  - destruct (IH (dset acc k v) (dset_keys_nodup _ _ _ Hacc)) as [Hn Hk].
    split; [exact Hn|]. intros k'. rewrite Hk, dset_keys_in. simpl.
    split; intros H; repeat destruct H as [H|H]; subst; tauto.
Qed.

Lemma dupdate_keys_order acc kvs :
  NoDup (map fst kvs) -> (forall k, In k (map fst kvs) -> ~ In k (map fst acc)) ->
  map fst (dupdate acc kvs) = map fst acc ++ map fst kvs.
Proof.
  unfold dupdate. revert acc. induction kvs as [|[k v] kvs IH]; intros acc Hn Hd; simpl.
  - rewrite app_nil_r. reflexivity.
  - inversion Hn as [|? ? Hk Hn']; subst.
    assert (Hf : has_key acc k = false).
    { destruct (has_key acc k) eqn:E; [|reflexivity]. exfalso.
      apply has_key_in in E. exact (Hd k (or_introl eq_refl) E). }
    rewrite IH; [|exact Hn'|].
    + rewrite dset_keys, Hf, <- app_assoc. reflexivity.
    + intros k' Hin Hin'. rewrite dset_keys, Hf in Hin'. apply in_app_iff in Hin' as [H|[H|[]]].
      * exact (Hd k' (or_intror Hin) H).
      * subst. exact (Hk Hin).
Qed.

Lemma decode_keys s hdr r vd :
  CSV.decode s hdr r = Ok vd ->
  exists kvs, map fst kvs = CSV.field_names s /\ vd = dupdate [] kvs.
Proof.
  unfold CSV.decode.
  destruct (map_res _ (CSV.field_names s)) as [kvs|e] eqn:E; simpl; [|discriminate].
  intros H. inversion H; subst. exists kvs. split; [|reflexivity].
  apply map_res_Forall2 in E. clear H.
  induction E as [|f p fs ps Hp Hr IH]; simpl; [reflexivity|].
  revert Hp. unfold bind. destruct (CSV.convert_from_string _ _ _); intros Hp; [|discriminate].
  inversion Hp; subst. simpl. congruence.
Qed.

Lemma decode_keys_of_fields s hdr r vd :
  CSV.decode s hdr r = Ok vd -> keys_of_fields (CSV.field_names s) vd.
Proof.
  intros H. destruct (decode_keys _ _ _ _ H) as (kvs & Hk & ->).
  destruct (dupdate_keys [] kvs (NoDup_nil _)) as [Hn Hin].
  split; [exact Hn|]. split.
  - intros k. rewrite Hin, Hk. simpl. tauto.
  - intros Hnd. rewrite dupdate_keys_order; [simpl; exact Hk|rewrite Hk; exact Hnd|].
    intros k _ [].
Qed.

Lemma fetch_rows_keys s sdt edt ids hdr rs R :
  CSV.fetch_rows s sdt edt ids hdr rs = Ok R -> Forall (keys_of_fields (CSV.field_names s)) R.
Proof.
  revert R. induction rs as [|r rs IH]; intros R H; simpl in H.
  - inversion H. constructor.
  - destruct (CSV.decode s hdr r) as [vd|e] eqn:Ed; simpl in H; [|discriminate].
    destruct (CSV.fetch_keep sdt edt ids vd) as [k|e]; simpl in H; [|discriminate].
    destruct (CSV.fetch_rows s sdt edt ids hdr rs) as [tl|e]; simpl in H; [|discriminate].
    inversion H; subst. destruct k; [constructor|];
      [eapply decode_keys_of_fields; eauto| |]; apply IH; reflexivity.
Qed.

(** Extra X13 ([DatabaseConnectionCSV._fetch_data_object_time_series]):
    every fetched record has each field name of the connection as a key
    exactly once and no other key; when the field names are distinct, its
    keys are the field names in their order. *)
Theorem csv_fetch_record_keys fs s st en ids R :
  CSV.fetch_data_object_time_series fs s st en ids = Ok R ->
  Forall (fun vd => NoDup (map fst vd) /\ (forall k, In k (map fst vd) <-> In k (CSV.field_names s))
                    /\ (NoDup (CSV.field_names s) -> map fst vd = CSV.field_names s)) R.
Proof.
  unfold CSV.fetch_data_object_time_series. destruct (negb _); [discriminate|].
  destruct (opt_res python_datetime_utc st); simpl; [|discriminate].
  destruct (opt_res python_datetime_utc en); simpl; [|discriminate].
  destruct (CSV.read_file fs (CSV.path s)); simpl; [|discriminate].
  apply fetch_rows_keys.
Qed.

Lemma delete_skip_false st en ids vd :
  dt_off st = Some 0 -> dt_off en = Some 0 -> dt_key st < dt_key en ->
  CSV.delete_skip st en ids vd <> Ok false.
Proof.
  intros Hs He Hlt. unfold CSV.delete_skip.
  destruct (dict_index vd (Some "timestamp")) as [v|e]; simpl; [|discriminate].
  destruct v as [| | |t]; simpl; try discriminate.
  unfold dt_lt, comparable. rewrite Hs, He.
  destruct (dt_off t); simpl; try discriminate.
  destruct (dt_key st <? dt_key t) eqn:E1; simpl; [discriminate|].
  destruct (dt_key t <? dt_key en) eqn:E2; simpl; [discriminate|].
  apply Z.ltb_ge in E1, E2. lia.
Qed.

Lemma delete_loop_nothing_kept s st en ids hdr rs ws :
  dt_off st = Some 0 -> dt_off en = Some 0 -> dt_key st < dt_key en ->
  CSV.delete_loop s st en ids hdr rs = (ws, None) -> ws = [].
Proof.
  intros Hs He Hlt. revert ws. induction rs as [|r rs IH]; intros ws H; simpl in H.
  - inversion H. reflexivity.
  - destruct (CSV.decode s hdr r) as [vd|e]; simpl in H; [|discriminate].
    destruct (CSV.delete_skip st en ids vd) as [[|]|e] eqn:Ek; [apply IH; exact H| |discriminate].
    exfalso. exact (delete_skip_false _ _ _ _ Hs He Hlt Ek).
Qed.

(** Extra X14 ([DatabaseConnectionCSV._delete_data_object_time_series]):
    when the start time is strictly before the end time, a delete that
    raises nothing leaves only the header row in the file: every row is
    before the end or after the start, so every row is dropped. *)
Theorem csv_delete_forward_window_empties fs s st en ids sdt edt fs' :
  python_datetime_utc st = Ok sdt -> python_datetime_utc en = Ok edt ->
  dt_key sdt < dt_key edt ->
  CSV.delete_data_object_time_series fs s (Some st) (Some en) (Some ids) = (fs', None) ->
  fs' (CSV.path s) = Some [CSV.field_names s].
Proof.
  intros Hs He Hlt. unfold CSV.delete_data_object_time_series.
  destruct (negb _); [intros H; inversion H|]. rewrite Hs, He.
  destruct (fs (CSV.path s)) as [rows|]; [|intros H; inversion H].
  destruct (CSV.delete_loop s sdt edt ids _ _) as [ws [e|]] eqn:Ed; intros H; inversion H; subst.
  rewrite (delete_loop_nothing_kept _ _ _ _ _ _ _
             (python_datetime_utc_aware _ _ Hs) (python_datetime_utc_aware _ _ He) Hlt Ed).
  unfold CSV.fs_set. rewrite String.eqb_refl. reflexivity.
Qed.

(** Extra X15 ([DatabaseConnectionCSV._delete_data_object_time_series]): a
    delete changes no file besides the database file and the temporary file;
    when it raises, the database file is as it was; when it does not, the
    temporary file is gone. *)
Theorem csv_delete_touches_only_its_files fs s st en ids fs' err :
  CSV.delete_data_object_time_series fs s st en ids = (fs', err) ->
  (forall q, q <> CSV.path s -> q <> CSV.temp_path -> fs' q = fs q) /\
  (err <> None -> CSV.path s <> CSV.temp_path -> fs' (CSV.path s) = fs (CSV.path s)) /\
  (err = None -> CSV.path s <> CSV.temp_path -> fs' CSV.temp_path = None).
Proof.
  unfold CSV.delete_data_object_time_series.
  assert (Hset : forall (f : CSV.fsys) p v q, q <> p -> CSV.fs_set f p v q = f q).
  { intros f p v q Hq. unfold CSV.fs_set. destruct (String.eqb_spec q p); [contradiction|reflexivity]. }
  destruct (negb _); [intros H; inversion H; subst; repeat split; intros; first [reflexivity | congruence]|].
  destruct st as [st|], en as [en|], ids as [ids|];
    try (intros H; inversion H; subst; repeat split; intros; first [reflexivity | congruence]).
  destruct (python_datetime_utc st) as [sdt|e];
    [|intros H; inversion H; subst; repeat split; intros; first [reflexivity | congruence]].
  destruct (python_datetime_utc en) as [edt|e];
    [|intros H; inversion H; subst; repeat split; intros; first [reflexivity | congruence]].
  destruct (fs (CSV.path s)) as [rows|] eqn:Ep;
    [|intros H; inversion H; subst; repeat split; intros; first [reflexivity | congruence]].
  destruct (CSV.delete_loop _ _ _ _ _ _) as [ws [e|]]; intros H; inversion H; subst.
  - split; [intros q Hq Ht; apply Hset; exact Ht|].
    split; [intros _ Hp; rewrite Hset by exact Hp; exact Ep|]. intros Hc; discriminate.
  - split; [intros q Hq Ht; rewrite !Hset by assumption; reflexivity|].
    split; [intros Hc; contradiction Hc; reflexivity|].
    intros _ Hp. rewrite Hset by (intros Hc; apply Hp; symmetry; exact Hc).
    unfold CSV.fs_set. rewrite String.eqb_refl. reflexivity.
Qed.

(** ** Writing then fetching on the CSV store *)

Lemma assoc_sset k k' v (d : list (string * option string)) :
  assoc k (CSV.sset d k' v) = if String.eqb k' k then Some v else assoc k d.
Proof.
  induction d as [|[k1 v1] r IH]; simpl.
  - destruct (String.eqb k' k); reflexivity.
  - destruct (String.eqb_spec k1 k') as [->|Hne]; simpl.
    + destruct (String.eqb k' k); reflexivity.
    + rewrite IH. destruct (String.eqb_spec k1 k) as [->|Hne2]; [|reflexivity].
      destruct (String.eqb_spec k' k); congruence.
Qed.

Lemma assoc_fold_sset (g : string -> string) k fns acc :
  assoc k (fold_left (fun acc kv => CSV.sset acc (fst kv) (Some (snd kv)))
             (map (fun f => (f, g f)) fns) acc)
  = if existsb (String.eqb k) fns then Some (Some (g k)) else assoc k acc.
Proof.
  revert acc. induction fns as [|f r IH]; intros acc; simpl; [reflexivity|].
  rewrite IH, assoc_sset.
  destruct (String.eqb_spec k f) as [->|Hne]; simpl.
  - rewrite String.eqb_refl. destruct (existsb _ r); reflexivity.
  - destruct (String.eqb_spec f k); [congruence|reflexivity].
Qed.

Lemma combine_map_r {A B} (g : A -> B) l : combine l (map g l) = map (fun x => (x, g x)) l.
Proof. induction l; simpl; f_equal; auto. Qed.

Lemma sget_string_dict (g : string -> string) fns k :
  In k fns -> CSV.sget (CSV.string_dict fns (map g fns)) k = Some (g k).
Proof.
  intros Hk. unfold CSV.sget, CSV.string_dict.
  rewrite length_map, skipn_all. simpl. rewrite combine_map_r, assoc_fold_sset.
  assert (existsb (String.eqb k) fns = true) as ->
    by (apply existsb_exists; exists k; split; [exact Hk|apply String.eqb_refl]).
  reflexivity.
Qed.

Lemma map_res_map {A B} (f : A -> res B) (v : A -> B) l :
  (forall x, In x l -> f x = Ok (v x)) -> map_res f l = Ok (map v l).
Proof.
  induction l as [|x r IH]; intros H; simpl; [reflexivity|].
  rewrite H by (left; reflexivity). simpl. rewrite IH by (intros; apply H; right; assumption).
  reflexivity.
Qed.

Lemma map_res_ok_map {A B} (f : A -> res B) l l' (dflt : B) :
  map_res f l = Ok l' -> l' = map (fun x => match f x with Ok y => y | Err _ => dflt end) l.
Proof.
  revert l'. induction l as [|x r IH]; intros l' H; simpl in H.
  - inversion H. reflexivity.
  - destruct (f x) as [y|e] eqn:Ef; simpl in H; [|discriminate].
    destruct (map_res f r) as [ys|e] eqn:Er; simpl in H; [|discriminate].
    inversion H; subst. simpl. rewrite Ef. f_equal. now apply IH.
Qed.

Lemma dget_map (v : string -> pyval) fns k :
  In k fns -> dget (map (fun f => (f, v f)) fns) k = Some (v k).
Proof.
  induction fns as [|f r IH]; intros Hk; simpl in *; [contradiction|].
  destruct (String.eqb_spec f k) as [->|Hne]; [reflexivity|].
  apply IH. destruct Hk; [congruence|assumption].
Qed.

Lemma dget_dupdate_map (v : string -> pyval) fns acc k :
  In k fns -> dget (dupdate acc (map (fun f => (f, v f)) fns)) k = Some (v k).
Proof.
  revert acc. induction fns as [|f r IH]; intros acc Hk; [contradiction|].
  destruct (in_dec string_dec k r) as [Hr|Hr]; [exact (IH _ Hr)|].
  destruct Hk as [->|Hk]; [|contradiction].
  change (dupdate acc (map (fun f => (f, v f)) (k :: r)))
    with (dupdate (dset acc k (v k)) (map (fun f => (f, v f)) r)).
  rewrite dget_dupdate_absent.
  - rewrite dget_dset, String.eqb_refl. reflexivity.
  - destruct (has_key _ k) eqn:E; [|reflexivity]. exfalso. apply Hr.
    apply has_key_in in E. rewrite map_map in E. simpl in E. rewrite map_id in E. exact E.
Qed.

Lemma fetch_rows_app s sdt edt ids hdr b1 b2 :
  CSV.fetch_rows s sdt edt ids hdr (b1 ++ b2) =
  (l1 <- CSV.fetch_rows s sdt edt ids hdr b1 ;;
   l2 <- CSV.fetch_rows s sdt edt ids hdr b2 ;; Ok (l1 ++ l2)).
Proof.
  induction b1 as [|r b1 IH]; simpl.
  - destruct (CSV.fetch_rows s sdt edt ids hdr b2); reflexivity.
  - destruct (CSV.decode s hdr r) as [vd|e]; simpl; [|reflexivity].
    destruct (CSV.fetch_keep sdt edt ids vd) as [k|e]; simpl; [|reflexivity].
    rewrite IH. destruct (CSV.fetch_rows s sdt edt ids hdr b1) as [l1|e]; simpl; [|reflexivity].
    destruct (CSV.fetch_rows s sdt edt ids hdr b2) as [l2|e]; simpl; [|reflexivity].
    destruct k; reflexivity.
Qed.

Lemma isoformat_nonempty d : String.eqb (isoformat d) EmptyString = false.
Proof.
  unfold isoformat, isoformat_sep. destruct (civil_from_days _) as [[y m] dd]. reflexivity.
Qed.

Lemma body_snoc rows r :
  rows <> [] -> r <> [] -> CSV.body (rows ++ [r]) = CSV.body rows ++ [r].
Proof.
  intros Hr Hn. destruct rows as [|h t]; [contradiction|]. simpl.
  rewrite filter_app. simpl. destruct r; [contradiction|reflexivity].
Qed.

Lemma hdr_of_snoc rows r : rows <> [] -> CSV.hdr_of (rows ++ [r]) = CSV.hdr_of rows.
Proof. destruct rows; [contradiction|reflexivity]. Qed.

(** Extra X17 ([write_data_object_time_series], [_write_data_object_time_series],
    [_fetch_data_object_time_series], [_python_datetime_utc]): with no custom
    converters, a header listing "timestamp" and "object_id", a data dict
    that does not override those two fields and a timestamp with whole
    seconds (no microseconds) whose UTC year lies in 1..9999, writing one record and fetching everything back yields
    the earlier records followed by one new record whose "timestamp" is the
    UTC datetime written and whose "object_id" is the object id written
    (None when it was the empty string). *)
Theorem csv_write_then_fetch fs s rows R ts o data ts' :
  CSV.convert_to_string_functions s = [] ->
  CSV.convert_from_string_functions s = [] ->
  In "timestamp" (CSV.field_names s) -> In "object_id" (CSV.field_names s) ->
  fs (CSV.path s) = Some rows -> CSV.header rows = Some (CSV.field_names s) ->
  has_key data "timestamp" = false -> has_key data "object_id" = false ->
  python_datetime_utc ts = Ok ts' -> 1 <= dt_year ts' <= 9999 ->
  CSV.fetch_data_object_time_series fs s None None None = Ok R ->
  exists fs' vd,
    CSV.write_data_object_time_series fs s ts (PStr o) data = Ok fs' /\
    CSV.fetch_data_object_time_series fs' s None None None = Ok (R ++ [vd]) /\
    dget vd "timestamp" = Some (PDt ts') /\
    dget vd "object_id" = Some (if String.eqb o EmptyString then PNone else PStr o).
Proof.
  intros Hto Hfrom Hts Hoid Hrows Hhdr Hdt Hdo Hutc Hy Hf.
  unfold CSV.fetch_data_object_time_series in Hf |- *.
  unfold CSV.write_data_object_time_series.
  destruct (negb _) eqn:Hflags; [discriminate|].
  rewrite Hutc. simpl opt_res in Hf |- *. cbn [bind] in Hf |- *.
  set (vdict := dupdate [("timestamp", PDt ts'); ("object_id", PStr o)] data).
  set (conv := fun f => CSV.convert_to_string s f
                 (match dget vdict f with Some v => v | None => PNone end)).
  assert (Hconv : forall f, In f (CSV.field_names s) -> exists c, conv f = Ok c).
  { intros f _. unfold conv, CSV.convert_to_string. rewrite Hto. simpl.
    destruct (String.eqb_spec f "timestamp") as [->|Hne].
    - unfold vdict. rewrite dget_dupdate_absent by exact Hdt. simpl. eauto.
    - destruct (match dget vdict f with Some v => v | None => PNone end); eauto. }
  set (g := fun f => match conv f with Ok c => c | Err _ => EmptyString end).
  assert (Hg : map_res conv (CSV.field_names s) = Ok (map g (CSV.field_names s))).
  { apply map_res_map. intros f Hf'. destruct (Hconv f Hf') as [c Hc].
    unfold g. rewrite Hc. reflexivity. }
  assert (Hgts : g "timestamp" = isoformat ts').
  { unfold g, conv, CSV.convert_to_string. rewrite Hto. unfold vdict.
    rewrite dget_dupdate_absent by exact Hdt. reflexivity. }
  assert (Hgoid : g "object_id" = o).
  { unfold g, conv, CSV.convert_to_string. rewrite Hto. unfold vdict.
    rewrite dget_dupdate_absent by exact Hdo. reflexivity. }
  set (val := fun f => match CSV.convert_from_string s f (Some (g f)) with
                       | Ok v => v | Err _ => PNone end).
  assert (Hdec : CSV.decode s (CSV.field_names s) (map g (CSV.field_names s))
                 = Ok (dupdate [] (map (fun f => (f, val f)) (CSV.field_names s)))).
  { unfold CSV.decode. rewrite map_res_map with (v := fun f => (f, val f)); [reflexivity|].
    intros f Hf'.
    rewrite sget_string_dict by exact Hf'. unfold val.
    destruct (CSV.convert_from_string s f (Some (g f))) as [v|e] eqn:Ec; [reflexivity|].
    exfalso. revert Ec. unfold CSV.convert_from_string. rewrite Hfrom. simpl.
    destruct (String.eqb (g f) EmptyString); [discriminate|].
    destruct (String.eqb_spec f "timestamp") as [->|Hne]; [|discriminate].
    rewrite Hgts. unfold bind. simpl dateutil_parse.
    rewrite parse_isoformat; [discriminate|exact Hy|].
    right. exists 0. split; [eapply python_datetime_utc_aware; eauto|]. split; [lia|reflexivity]. }
  assert (Hvts : val "timestamp" = PDt ts').
  { unfold val, CSV.convert_from_string. rewrite Hfrom, Hgts, isoformat_nonempty. simpl.
    rewrite parse_isoformat; [reflexivity|exact Hy|].
    right. exists 0. split; [eapply python_datetime_utc_aware; eauto|]. split; [lia|reflexivity]. }
  assert (Hvoid : val "object_id" = if String.eqb o EmptyString then PNone else PStr o).
  { unfold val, CSV.convert_from_string. rewrite Hfrom, Hgoid.
    destruct (String.eqb o EmptyString); reflexivity. }
  exists (CSV.fs_append fs (CSV.path s) (map g (CSV.field_names s))),
         (dupdate [] (map (fun f => (f, val f)) (CSV.field_names s))).
  rewrite Hg. split; [reflexivity|].
  split; [|split; [rewrite dget_dupdate_map by exact Hts; now rewrite Hvts
                  |rewrite dget_dupdate_map by exact Hoid; now rewrite Hvoid]].
  unfold CSV.read_file in Hf |- *. rewrite Hrows in Hf. cbn [bind] in Hf.
  unfold CSV.fs_append, CSV.fs_set. rewrite String.eqb_refl, Hrows. cbn [bind].
  assert (Hne : map g (CSV.field_names s) <> []).
  { destruct (CSV.field_names s); [contradiction|discriminate]. }
  rewrite body_snoc, hdr_of_snoc by (assumption || (destruct rows; discriminate)).
  rewrite fetch_rows_app, Hf. cbn [bind].
  unfold CSV.hdr_of in Hf |- *. rewrite Hhdr. simpl. rewrite Hdec. reflexivity.
Qed.

(** ** Time bounds and time zones: the claim *)



(** ** Instances of the further properties *)

Lemma mem_fetch_selects_stored_witness :
  Memory.fetch_data mem_abc (Some (PStr "2024-01-02T00:00:00Z")) None (Some [PStr "a"; PStr "b"])
    (Some ["object_id"])
  = Ok [[("object_id", PStr "b")]; [("object_id", PStr "a")]] /\
  exists sel : dict -> bool,
    [[("object_id", PStr "b")]; [("object_id", PStr "a")]]
    = map (Memory.project (Some ["object_id"])) (filter sel (Memory.data mem_abc)).
Proof.
  assert (H : Memory.fetch_data mem_abc (Some (PStr "2024-01-02T00:00:00Z")) None
    (Some [PStr "a"; PStr "b"]) (Some ["object_id"])
    = Ok [[("object_id", PStr "b")]; [("object_id", PStr "a")]])
    by (vm_compute; reflexivity).
  split; [exact H|]. exact (mem_fetch_selects_stored _ _ _ _ _ _ H).
Defined.

Lemma mem_fetch_empty_ids_witness :
  Memory.object_id_field_name mem_ab <> None /\
  forallb (mem_valid mem_ab) (Memory.data mem_ab) = true /\
  Memory.fetch_data mem_ab None None (Some []) None = Ok [].
Proof.
  assert (H1 : Memory.object_id_field_name mem_ab <> None) by discriminate.
  assert (H2 : forallb (mem_valid mem_ab) (Memory.data mem_ab) = true) by (vm_compute; reflexivity).
  split; [exact H1|]. split; [exact H2|]. exact (mem_fetch_empty_ids _ _ H1 H2).
Defined.

Lemma queue_init_missing_key_witness :
  In [("object_id", PStr "a")] (Queue.hupd empty_heap 0%nat [rec_utc6; [("object_id", PStr "a")]] 0%nat) /\
  dict_index [("object_id", PStr "a")] (Some "timestamp") = Err KeyError /\
  Queue.init (Queue.hupd empty_heap 0%nat [rec_utc6; [("object_id", PStr "a")]]) 0%nat (Some "timestamp")
  = Err KeyError.
Proof.
  assert (H1 : In [("object_id", PStr "a")] (Queue.hupd empty_heap 0%nat [rec_utc6; [("object_id", PStr "a")]] 0%nat))
    by (simpl; right; left; reflexivity).
  assert (H2 : dict_index [("object_id", PStr "a")] (Some "timestamp") = Err KeyError)
    by (vm_compute; reflexivity).
  split; [exact H1|]. split; [exact H2|]. exact (queue_init_missing_key _ _ _ _ H1 H2).
Defined.

Lemma queue_init_text_keys_witness :
  (forall dp, In dp (heap_two 0%nat) -> exists t, dict_index dp (Some "timestamp") = Ok (PStr t)) /\
  exists h' q, Queue.init heap_two 0%nat (Some "timestamp") = Ok (h', q).
Proof.
  assert (H : forall dp, In dp (heap_two 0%nat) -> exists t, dict_index dp (Some "timestamp") = Ok (PStr t)).
  { intros dp Hin. simpl in Hin. destruct Hin as [<-|[<-|[]]]; eexists; vm_compute; reflexivity. }
  split; [exact H|]. exact (queue_init_text_keys _ _ _ H).
Defined.

Lemma queue_init_sorted_unchanged_witness :
  (forall dp, In dp (Queue.hupd empty_heap 0%nat [rec_utc6; rec_plus5] 0%nat) ->
     exists k, dict_index dp (Some "timestamp") = Ok k) /\
  Sorted (key_le (Some "timestamp")) (Queue.hupd empty_heap 0%nat [rec_utc6; rec_plus5] 0%nat) /\
  exists h', Queue.init (Queue.hupd empty_heap 0%nat [rec_utc6; rec_plus5]) 0%nat (Some "timestamp")
             = Ok (h', Queue.DQ 0%nat (Some "timestamp") 2%nat 0%nat) /\
             forall l', h' l' = Queue.hupd empty_heap 0%nat [rec_utc6; rec_plus5] l'.
Proof.
  assert (H1 : forall dp, In dp (Queue.hupd empty_heap 0%nat [rec_utc6; rec_plus5] 0%nat) ->
     exists k, dict_index dp (Some "timestamp") = Ok k).
  { intros dp Hin. simpl in Hin. destruct Hin as [<-|[<-|[]]]; eexists; vm_compute; reflexivity. }
  assert (H2 : Sorted (key_le (Some "timestamp")) (Queue.hupd empty_heap 0%nat [rec_utc6; rec_plus5] 0%nat)).
  { simpl. repeat constructor. exists (PStr "2024-01-01T06:00:00+00:00"), (PStr "2024-01-01T10:00:00+05:00").
    split; [reflexivity|]. split; [reflexivity|]. vm_compute. reflexivity. }
  split; [exact H1|]. split; [exact H2|]. exact (queue_init_sorted_unchanged _ _ _ H1 H2).
Defined.

Lemma queue_init_stable_witness :
  Queue.init heap_tie 0%nat (Some "timestamp")
  = Ok (Queue.hupd heap_tie 0%nat [rec_t2; rec_t1; rec_t3], Queue.DQ 0%nat (Some "timestamp") 3%nat 0%nat) /\
  filter (key_ties (Some "timestamp") (PDt (mkdt 1704067200 (Some 0)))) (heap_tie 0%nat) = [rec_t1; rec_t3] /\
  filter (key_ties (Some "timestamp") (PDt (mkdt 1704067200 (Some 0))))
    (Queue.hupd heap_tie 0%nat [rec_t2; rec_t1; rec_t3] 0%nat)
  = filter (key_ties (Some "timestamp") (PDt (mkdt 1704067200 (Some 0)))) (heap_tie 0%nat).
Proof.
  assert (H : Queue.init heap_tie 0%nat (Some "timestamp")
    = Ok (Queue.hupd heap_tie 0%nat [rec_t2; rec_t1; rec_t3], Queue.DQ 0%nat (Some "timestamp") 3%nat 0%nat))
    by (vm_compute; reflexivity).
  split; [exact H|]. split; [vm_compute; reflexivity|].
  exact (queue_init_stable _ _ _ _ _ _ H).
Defined.

Lemma csv_init_reopen_witness :
  CSV.init no_files "db.csv" true true None [] []
  = Ok (CSV.fs_set no_files "db.csv" (Some [["timestamp"; "object_id"]]), csv_default) /\
  CSV.init (CSV.fs_set no_files "db.csv" (Some [["timestamp"; "object_id"]])) "db.csv" true true None [] []
  = Ok (CSV.fs_set no_files "db.csv" (Some [["timestamp"; "object_id"]]), csv_default).
Proof.
  assert (H : CSV.init no_files "db.csv" true true None [] []
    = Ok (CSV.fs_set no_files "db.csv" (Some [["timestamp"; "object_id"]]), csv_default))
    by (vm_compute; reflexivity).
  split; [exact H|]. exact (csv_init_reopen _ _ _ _ _ _ _ _ _ H).
Defined.



Lemma csv_write_appends_one_row_witness :
  CSV.write_data_object_time_series file_empty_db csv_default
    (PStr "2024-01-01T05:00:00+05:00") (PStr "a") []
  = Ok (CSV.fs_append file_empty_db "db.csv" ["2024-01-01T00:00:00+00:00"; "a"]) /\
  (exists r, length r = length (CSV.field_names csv_default) /\
     CSV.fs_append file_empty_db "db.csv" ["2024-01-01T00:00:00+00:00"; "a"] (CSV.path csv_default)
     = Some (match file_empty_db (CSV.path csv_default) with Some rows => rows | None => [] end ++ [r]))
  /\ forall q, q <> CSV.path csv_default ->
     CSV.fs_append file_empty_db "db.csv" ["2024-01-01T00:00:00+00:00"; "a"] q = file_empty_db q.
Proof.
  assert (H : CSV.write_data_object_time_series file_empty_db csv_default
    (PStr "2024-01-01T05:00:00+05:00") (PStr "a") []
    = Ok (CSV.fs_append file_empty_db "db.csv" ["2024-01-01T00:00:00+00:00"; "a"]))
    by (vm_compute; reflexivity).
  split; [exact H|]. exact (csv_write_appends_one_row _ _ _ _ _ _ H).
Defined.

Lemma csv_fetch_record_keys_witness :
  CSV.fetch_data_object_time_series file_dup csv_dup None None None
  = Ok [[("timestamp", PDt (mkdt 1704067200 (Some 0))); ("object_id", PStr "a"); ("x", PStr "2")]] /\
  Forall (fun vd => NoDup (map fst vd) /\
            (forall k, In k (map fst vd) <-> In k (CSV.field_names csv_dup)) /\
            (NoDup (CSV.field_names csv_dup) -> map fst vd = CSV.field_names csv_dup))
    [[("timestamp", PDt (mkdt 1704067200 (Some 0))); ("object_id", PStr "a"); ("x", PStr "2")]].
Proof.
  assert (H : CSV.fetch_data_object_time_series file_dup csv_dup None None None
    = Ok [[("timestamp", PDt (mkdt 1704067200 (Some 0))); ("object_id", PStr "a"); ("x", PStr "2")]])
    by (vm_compute; reflexivity).
  split; [exact H|]. exact (csv_fetch_record_keys _ _ _ _ _ _ H).
Defined.

Lemma csv_delete_forward_window_empties_witness :
  python_datetime_utc (PStr "2024-01-01T00:00:00Z") = Ok (mkdt 1704067200 (Some 0)) /\
  python_datetime_utc (PStr "2024-01-01T23:59:59Z") = Ok (mkdt 1704153599 (Some 0)) /\
  dt_key (mkdt 1704067200 (Some 0)) < dt_key (mkdt 1704153599 (Some 0)) /\
  CSV.delete_data_object_time_series file_ab csv_default
    (Some (PStr "2024-01-01T00:00:00Z")) (Some (PStr "2024-01-01T23:59:59Z")) (Some [PStr "a"])
  = (CSV.fs_set (CSV.fs_set file_ab CSV.temp_path None) "db.csv" (Some [["timestamp"; "object_id"]]), None) /\
  CSV.fs_set (CSV.fs_set file_ab CSV.temp_path None) "db.csv" (Some [["timestamp"; "object_id"]])
    (CSV.path csv_default) = Some [CSV.field_names csv_default].
Proof.
  assert (H1 : python_datetime_utc (PStr "2024-01-01T00:00:00Z") = Ok (mkdt 1704067200 (Some 0)))
    by (vm_compute; reflexivity).
  assert (H2 : python_datetime_utc (PStr "2024-01-01T23:59:59Z") = Ok (mkdt 1704153599 (Some 0)))
    by (vm_compute; reflexivity).
  assert (H3 : dt_key (mkdt 1704067200 (Some 0)) < dt_key (mkdt 1704153599 (Some 0)))
    by (vm_compute; reflexivity).
  assert (H4 : CSV.delete_data_object_time_series file_ab csv_default
    (Some (PStr "2024-01-01T00:00:00Z")) (Some (PStr "2024-01-01T23:59:59Z")) (Some [PStr "a"])
    = (CSV.fs_set (CSV.fs_set file_ab CSV.temp_path None) "db.csv" (Some [["timestamp"; "object_id"]]), None))
    by (vm_compute; reflexivity).
  split; [exact H1|]. split; [exact H2|]. split; [exact H3|]. split; [exact H4|].
  exact (csv_delete_forward_window_empties _ _ _ _ _ _ _ _ H1 H2 H3 H4).
Defined.

Lemma csv_delete_touches_only_its_files_witness :
  CSV.delete_data_object_time_series file_ab csv_default
    (Some (PStr "2024-01-01T00:00:00Z")) (Some (PStr "2024-01-01T23:59:59Z")) (Some [PStr "a"])
  = (CSV.fs_set (CSV.fs_set file_ab CSV.temp_path None) "db.csv" (Some [["timestamp"; "object_id"]]), None) /\
  let fs' := CSV.fs_set (CSV.fs_set file_ab CSV.temp_path None) "db.csv" (Some [["timestamp"; "object_id"]]) in
  (forall q, q <> CSV.path csv_default -> q <> CSV.temp_path -> fs' q = file_ab q) /\
  (@None pyexc <> None -> CSV.path csv_default <> CSV.temp_path -> fs' (CSV.path csv_default) = file_ab (CSV.path csv_default)) /\
  (@None pyexc = None -> CSV.path csv_default <> CSV.temp_path -> fs' CSV.temp_path = None).
Proof.
  assert (H : CSV.delete_data_object_time_series file_ab csv_default
    (Some (PStr "2024-01-01T00:00:00Z")) (Some (PStr "2024-01-01T23:59:59Z")) (Some [PStr "a"])
    = (CSV.fs_set (CSV.fs_set file_ab CSV.temp_path None) "db.csv" (Some [["timestamp"; "object_id"]]), None))
    by (vm_compute; reflexivity).
  split; [exact H|]. exact (csv_delete_touches_only_its_files _ _ _ _ _ _ _ H).
Defined.

Lemma isoformat_read_back_witness :
  1 <= dt_year (mkdt 1704085200 (Some 18000)) <= 9999 /\
  (dt_off (mkdt 1704085200 (Some 18000)) = None \/
   exists o, dt_off (mkdt 1704085200 (Some 18000)) = Some o /\ -86400 < o < 86400 /\ o mod 60 = 0) /\
  dateutil_parse (PStr (isoformat (mkdt 1704085200 (Some 18000)))) = Ok (mkdt 1704085200 (Some 18000)).
Proof.
  assert (H1 : 1 <= dt_year (mkdt 1704085200 (Some 18000)) <= 9999) by (vm_compute; split; discriminate).
  assert (H2 : dt_off (mkdt 1704085200 (Some 18000)) = None \/
   exists o, dt_off (mkdt 1704085200 (Some 18000)) = Some o /\ -86400 < o < 86400 /\ o mod 60 = 0).
  { right. exists 18000. split; [reflexivity|]. split; [lia|reflexivity]. }
  split; [exact H1|]. split; [exact H2|]. exact (isoformat_read_back _ H1 H2).
Defined.

Lemma csv_write_then_fetch_witness :
  exists fs' vd,
    CSV.write_data_object_time_series file_empty_db csv_default
      (PStr "2024-01-01T05:00:00+05:00") (PStr "a") [] = Ok fs' /\
    CSV.fetch_data_object_time_series fs' csv_default None None None = Ok ([] ++ [vd]) /\
    dget vd "timestamp" = Some (PDt (mkdt 1704067200 (Some 0))) /\
    dget vd "object_id" = Some (if String.eqb "a" EmptyString then PNone else PStr "a").
Proof.
  apply (csv_write_then_fetch file_empty_db csv_default [["timestamp"; "object_id"]] []
           (PStr "2024-01-01T05:00:00+05:00") "a" [] (mkdt 1704067200 (Some 0)));
    try reflexivity.
  - simpl; auto.
  - simpl; auto.
  - vm_compute; split; discriminate.
Defined.
